(** * Insurance charge predictor: the Streamlit script and its encoder

    A shallow embedding of [streamlit_insurance_app.py].  The script is a
    top-level Streamlit program: Streamlit runs it from top to bottom once per
    browser interaction.  We model

    - Python values, the pandas table built by the Predict page and the
      one-hot encoder ([input_df]);
    - the two-decimal format specification [:.2f];
    - the world a run sees (working directory, widget values sent by the
      browser, the [st.cache_resource] store, what was rendered so far) and
      a state-and-exception monad over it;
    - the pages of the script, the script itself and a process that reruns it.
*)

From Stdlib Require Import ZArith String Ascii List Bool Lia.
From Stdlib Require Import Floats.PrimFloat Floats.SpecFloat Floats.FloatOps.
From Stdlib Require Import Uint63.
From stdpp Require Import base option gmap strings pretty.
Import ListNotations.

Set Warnings "-register-all".

Local Open Scope string_scope.
Local Open Scope Z_scope.

(** ** Python values and pandas tables *)

(** The values the script moves around: [int] (unbounded), [float]
    (IEEE binary64) and [str]. *)
Inductive pyval : Type :=
| PyInt (z : Z)
| PyFloat (f : float)
| PyStr (s : string).

(** A [pd.DataFrame] built from a dict of columns: the columns in insertion
    order, each a name and its cells, one cell per row. *)
Definition DataFrame : Type := list (string * list pyval).

Fixpoint column (name : string) (df : DataFrame) : option (list pyval) :=
  match df with
  | [] => None
  | (c, cells) :: rest => if String.eqb c name then Some cells else column name rest
  end.

Definition columns (df : DataFrame) : list string := map fst df.

(** Row [i] of a table, in column order; [None] when some column is shorter. *)
Definition row (i : nat) (df : DataFrame) : option (list pyval) :=
  mapM (fun c : string * list pyval => nth_error (snd c) i) df.

(** ** The one-hot encoder (lines 106-115)

    [1 if s == lit else 0] on a Python [str]. *)
Definition flag (s lit : string) : pyval :=
  if String.eqb s lit then PyInt 1 else PyInt 0.

Definition input_df (age bmi children : pyval) (smoker sex region : string)
  : DataFrame :=
  [ ("age", [age]);
    ("bmi", [bmi]);
    ("children", [children]);
    ("smoker", [flag smoker "yes"]);
    ("sex_male", [flag sex "male"]);
    ("region_northwest", [flag region "northwest"]);
    ("region_southeast", [flag region "southeast"]);
    ("region_southwest", [flag region "southwest"]) ].

(** The three region cells of the single row, in column order. *)
Definition region_flags (df : DataFrame) : option (list pyval) :=
  r ← row 0 df; Some (skipn 5 r).

(** How many cells are the integer 1. *)
Definition is_one (v : pyval) : bool :=
  match v with PyInt 1 => true | _ => false end.

Definition count_ones (cells : list pyval) : nat :=
  length (filter (fun v => is_one v = true) cells).

(** ** The format specification [:.2f]

    Python renders a float with two decimals by rounding its exact binary
    value to the nearest hundredth, ties to even. *)

(** [n / d] rounded to the nearest integer, ties to even ([0 <= n], [0 < d]). *)
Definition round_half_even (n d : Z) : Z :=
  let q := n / d in
  match 2 * (n mod d) ?= d with
  | Lt => q
  | Gt => q + 1
  | Eq => if Z.even q then q else q + 1
  end.

(** The magnitude [m * 2^e] in hundredths. *)
Definition hundredths (m : positive) (e : Z) : Z :=
  if 0 <=? e then Z.pos m * 2 ^ e * 100
  else round_half_even (Z.pos m * 100) (2 ^ (- e)).

Definition two_digits (n : Z) : string :=
  if n <? 10 then "0" ++ pretty n else pretty n.

Definition fixed2 (h : Z) : string :=
  pretty (h / 100) ++ "." ++ two_digits (h mod 100).

Definition sign (s : bool) : string := if s then "-" else "".

Definition format_2f (x : float) : string :=
  match Prim2SF x with
  | S754_nan => "nan"
  | S754_infinity s => sign s ++ "inf"
  | S754_zero s => sign s ++ "0.00"
  | S754_finite s m e => sign s ++ fixed2 (hundredths m e)
  end.

(** ** Exceptions, the model handle and the libraries the script calls *)

Inductive exn : Type :=
| FileNotFoundError (path : string)
| IndexError
| StreamlitAPIException (widget : string)
| LibraryError (what : string).

Inductive outcome (A : Type) : Type :=
| Ok (a : A)
| Raise (e : exn).
Arguments Ok {A} a.
Arguments Raise {A} e.

(** The object [joblib.load] returns: all the script asks of it is
    [model.predict(table)], a collection of floats or an exception. *)
Record Model : Type := { predict : DataFrame -> outcome (list float) }.

(** What [json.load] returns. *)
Inductive json : Type :=
| JNull
| JBool (b : bool)
| JInt (z : Z)
| JFloat (f : float)
| JStr (s : string)
| JList (items : list json)
| JDict (items : list (string * json)).

(** Python truthiness of a parsed JSON value ([if animation:]). *)
Definition truthy (j : json) : bool :=
  match j with
  | JNull => false
  | JBool b => b
  | JInt z => negb (z =? 0)
  | JFloat f => negb (PrimFloat.eqb f 0)
  | JStr s => negb (String.eqb s "")
  | JList items => match items with [] => false | _ => true end
  | JDict items => match items with [] => false | _ => true end
  end.

(** A plotly figure, as the JSON document handed to the browser. *)
Record Figure : Type := { fig_json : string }.

(** A widget value as the browser sends it, keyed by the widget's label. *)
Inductive widget_value : Type :=
| Number (v : pyval)
| Choice (index : nat)
| Clicked (pressed : bool)
| Uploaded (content : string).

(** The parsers and chart builders of joblib, json, pandas and plotly are
    not part of the repository: the script is modelled over any behaviour
    of theirs, each a function of its arguments that returns or raises.

    So are two behaviours of the Streamlit side that the script does not
    decide: whether [st_lottie] takes the value it is given or raises
    ([lottie_check]), and what [st.number_input] makes of a browser state
    that is not a number of the widget's type between its bounds
    ([number_fallback]). *)
Class Externals : Type := {
  joblib_load : string -> outcome Model;
  json_load : string -> outcome json;
  read_csv : string -> outcome DataFrame;
  px_scatter : DataFrame -> string -> string -> string -> string -> outcome Figure;
  px_box : DataFrame -> string -> string -> string -> outcome Figure;
  lottie_check : json -> Z -> outcome unit;
  number_fallback : pyval -> pyval -> widget_value -> outcome pyval
}.

(** ** What a run sees and leaves behind *)

Inductive container : Type :=
| Main
| Sidebar
| Column (i : nat)
| Tab (i : nat).

Inductive element : Type :=
| Markdown (body : string) (unsafe_allow_html : bool)
| Radio (label : string) (options : list string)
| NumberInput (label : string) (min_value max_value : pyval)
| Selectbox (label : string) (options : list string)
| Button (label : string) (use_container_width : bool)
| FileUploader (label type : string)
| Lottie (animation : json) (height : Z)
| Info (body : string)
| Error (body : string)
| Success (body : string)
| Write (body : string)
| Subheader (body : string)
| Columns (n : nat)
| Tabs (labels : list string)
| PlotlyChart (fig : Figure) (use_container_width : bool)
| Dataframe (df : DataFrame)
| Exception (e : exn).

(** What a run does to its environment, in order. *)
Inductive event : Type :=
| Open (path : string)
| Score (m : Model) (table : DataFrame)
| PageConfig (page_title layout page_icon : string)
| Render (c : container) (e : element).

Record world : Type := {
  files : gmap string string;
  frontend : gmap string widget_value;
  resource_cache : gmap string Model;
  trace : list event
}.

Definition log (e : event) (w : world) : world :=
  {| files := files w; frontend := frontend w;
     resource_cache := resource_cache w; trace := trace w ++ [e] |}.

(** Several events, in order. *)
Definition logs (evs : list event) (w : world) : world :=
  {| files := files w; frontend := frontend w;
     resource_cache := resource_cache w; trace := trace w ++ evs |}.

Definition remember (key : string) (m : Model) (w : world) : world :=
  {| files := files w; frontend := frontend w;
     resource_cache := <[key := m]> (resource_cache w); trace := trace w |}.

(** ** The monad of script fragments: state and exceptions *)

Definition Script (A : Type) : Type := world -> outcome A * world.

#[export] Instance Script_ret : MRet Script := fun A a w => (Ok a, w).

#[export] Instance Script_bind : MBind Script := fun A B k c w =>
  match c w with
  | (Ok a, w') => k a w'
  | (Raise e, w') => (Raise e, w')
  end.

Definition raise {A : Type} (e : exn) : Script A := fun w => (Raise e, w).

Definition lift {A : Type} (r : outcome A) : Script A := fun w => (r, w).

(** [try: body / except: handler], the bare [except] of the script: every
    exception is caught; what the body did before raising stays done. *)
Definition try_except {A : Type} (body handler : Script A) : Script A :=
  fun w =>
    match body w with
    | (Ok a, w') => (Ok a, w')
    | (Raise _, w') => handler w'
    end.

Definition emit (e : event) : Script unit := fun w => (Ok tt, log e w).

Definition render (c : container) (e : element) : Script unit :=
  emit (Render c e).

(** Open a file of the working directory and read it whole. *)
Definition open_read (path : string) : Script string := fun w =>
  match files w !! path with
  | Some content => (Ok content, log (Open path) w)
  | None => (Raise (FileNotFoundError path), log (Open path) w)
  end.

(** [seq[i]] on a Python sequence. *)
Definition subscript {A : Type} (l : list A) (i : nat) : Script A :=
  match nth_error l i with
  | Some a => mret a
  | None => raise IndexError
  end.

(** ** Streamlit *)

Definition st_markdown (c : container) (body : string) (html : bool)
  : Script unit := render c (Markdown body html).

(** A widget call renders the widget and returns the value the browser
    state holds for its label. *)
Definition ask {A : Type} (value : gmap string widget_value -> outcome A)
  : Script A := fun w => (value (frontend w), w).

Definition widget {A : Type} (c : container) (e : element)
    (value : gmap string widget_value -> outcome A) : Script A :=
  render c e;; ask value.

(** [st.radio] and [st.selectbox]: the option at the index the browser
    sends, the first option before any interaction. *)
Definition chosen (label : string) (options : list string)
    (fe : gmap string widget_value) : outcome string :=
  match fe !! label with
  | None =>
      match options with
      | o :: _ => Ok o
      | [] => Raise (StreamlitAPIException label)
      end
  | Some (Choice i) =>
      match nth_error options i with
      | Some o => Ok o
      | None => Raise (StreamlitAPIException label)
      end
  | Some _ => Raise (StreamlitAPIException label)
  end.

Definition radio (c : container) (label : string) (options : list string)
  : Script string := widget c (Radio label options) (chosen label options).

Definition selectbox (c : container) (label : string) (options : list string)
  : Script string := widget c (Selectbox label options) (chosen label options).

(** [min_value <= v <= max_value], for a value of the bounds' type. *)
Definition within (lo hi v : pyval) : bool :=
  match lo, hi, v with
  | PyInt a, PyInt b, PyInt z => (a <=? z) && (z <=? b)
  | PyFloat a, PyFloat b, PyFloat f => PrimFloat.leb a f && PrimFloat.leb f b
  | _, _, _ => false
  end.

(** [st.number_input(label, min_value, max_value)]: the minimum before any
    interaction; the number the browser sends, when it is of the widget's
    type and between the bounds, which is all the widget of the browser
    sends.  What comes back for any other state is Streamlit's doing, not
    the script's: [number_fallback]. *)
Definition entered `{ext : Externals} (label : string) (lo hi : pyval)
    (fe : gmap string widget_value) : outcome pyval :=
  match fe !! label with
  | None => Ok lo
  | Some (Number v) =>
      if within lo hi v then Ok v else number_fallback lo hi (Number v)
  | Some other => number_fallback lo hi other
  end.

Definition number_input `{ext : Externals} (c : container) (label : string)
    (lo hi : pyval) : Script pyval :=
  widget c (NumberInput label lo hi) (entered label lo hi).

(** [st.button]: true in the run its click triggers. *)
Definition clicked (label : string) (fe : gmap string widget_value)
  : outcome bool :=
  match fe !! label with
  | None => Ok false
  | Some (Clicked b) => Ok b
  | Some _ => Raise (StreamlitAPIException label)
  end.

Definition button (c : container) (label : string) (wide : bool)
  : Script bool := widget c (Button label wide) (clicked label).

(** [st.file_uploader]: the uploaded file, [None] while there is none. *)
Definition uploaded_file (label : string) (fe : gmap string widget_value)
  : outcome (option string) :=
  match fe !! label with
  | None => Ok None
  | Some (Uploaded content) => Ok (Some content)
  | Some _ => Raise (StreamlitAPIException label)
  end.

Definition file_uploader (c : container) (label type : string)
  : Script (option string) :=
  widget c (FileUploader label type) (uploaded_file label).

(** [@st.cache_resource]: the decorated function runs when the store has
    nothing under its key, and its result is stored; afterwards the stored
    object is returned and the function is not run.  An exception stores
    nothing. *)
Definition cache_resource (key : string) (f : Script Model) : Script Model :=
  fun w =>
    match resource_cache w !! key with
    | Some m => (Ok m, w)
    | None =>
        match f w with
        | (Ok m, w') => (Ok m, remember key m w')
        | (Raise e, w') => (Raise e, w')
        end
    end.

(** ** The script *)

(** The double quote character of the HTML attributes. *)
Definition dq : string := String (ascii_of_nat 34) EmptyString.

Definition css : string :=
  "
    <style>
        .title { font-size: 45px; text-align: center; font-weight: 700; color: #2E86C1; }
        .subtitle { font-size: 20px; text-align: center; color: #444; margin-bottom: 25px; }
        .result-card {
            padding: 25px;
            background: linear-gradient(135deg, #D4EFDF, #ABEBC6);
            border-radius: 15px;
            text-align: center;
            border: 1px solid #A9DFBF;
        }
        .footer { font-size: 14px; color: #999; text-align: center; margin-top: 50px; }
    </style>
    ".

Definition features : string :=
  "
    - Intelligent ML model prediction
    - Clean 3‑column professional UI
    - Interactive analytics (Plotly charts)
    - Upload your own dataset
    - Side‑by‑side navigation for smooth experience
    ".

(** The f-string of the result card (lines 120-125). *)
Definition result_card (prediction : float) : string :=
  "
            <div class='result-card'>
                <h3>Predicted Charge</h3>
                <h1><b>$"
  ++ format_2f prediction ++
  "</b></h1>
            </div>
            ".

Definition menu_options : list string :=
  ["🏠 Home"; "📈 Predict"; "📊 Analytics"; "📁 Upload Dataset"].

Section Pages.
Context `{ext : Externals}.

(** [joblib.load(path)], [json.load(open(path))] and [pd.read_csv(path)]
    open the file and hand its content to the library's parser. *)
Definition joblib_load_path (path : string) : Script Model :=
  content ← open_read path; lift (joblib_load content).

Definition pd_read_csv_path (path : string) : Script DataFrame :=
  content ← open_read path; lift (read_csv content).

(** Lines 11-13. *)
Definition load_model : Script Model :=
  cache_resource "load_model"
    (joblib_load_path "optimized_random_forest_model.joblib").

(** Lines 48-50. *)
Definition load_lottie (path : string) : Script json :=
  content ← open_read path; lift (json_load content).

(** [model.predict(table)]. *)
Definition model_predict (model : Model) (table : DataFrame)
  : Script (list float) :=
  emit (Score model table);; lift (predict model table).

(** [st_lottie(animation, height=...)]: the component takes the animation
    and is rendered, or raises. *)
Definition st_lottie (c : container) (animation : json) (height : Z)
  : Script unit :=
  lift (lottie_check animation height);; render c (Lottie animation height).

(** Lines 62-80; [animation] is [None] when the file could not be loaded. *)
Definition home_page (animation : option json) : Script unit :=
  st_markdown Main ("<div class=" ++ dq ++ "title" ++ dq ++ ">💼 Insurance Cost Prediction App</div>") true;;
  st_markdown Main ("<div class=" ++ dq ++ "subtitle" ++ dq ++ ">A modern ML-powered tool to estimate medical insurance charges</div>") true;;
  match animation with
  | Some a =>
      if truthy a then st_lottie Main a 300
      else render Main (Info "Animation file not found. Add animation.json for animated graphics.")
  | None => render Main (Info "Animation file not found. Add animation.json for animated graphics.")
  end;;
  render Main (Write "---");;
  render Main (Subheader "✨ Features");;
  render Main (Write features).

(** Lines 91-103: the six widgets of the form, in the order the script
    calls them. *)
Definition predict_form
  : Script (pyval * pyval * pyval * string * string * string) :=
  render Main (Columns 3);;
  age ← number_input (Column 1) "Age" (PyInt 0) (PyInt 100);
  bmi ← number_input (Column 1) "BMI" (PyFloat 0) (PyFloat 80);
  children ← number_input (Column 2) "Children" (PyInt 0) (PyInt 10);
  smoker ← selectbox (Column 2) "Smoker" ["yes"; "no"];
  sex ← selectbox (Column 3) "Sex" ["male"; "female"];
  region ← selectbox (Column 3) "Region"
             ["northwest"; "southeast"; "southwest"];
  mret (age, bmi, children, smoker, sex, region).

(** Lines 117-127: the value bound to [prediction], when the button was
    pressed. *)
Definition predict_submit (model : Model) (table : DataFrame)
  : Script (option float) :=
  button Main "Predict" true ≫= fun pressed : bool =>
  if pressed then
    ys ← model_predict model table;
    prediction ← subscript ys 0;
    st_markdown Main (result_card prediction) true;;
    mret (Some prediction)
  else mret None.

(** Lines 86-127: the page returns the table bound to [input_df] and the
    value bound to [prediction]. *)
Definition predict_page (model : Model)
  : Script (DataFrame * option float) :=
  st_markdown Main ("<div class=" ++ dq ++ "title" ++ dq ++ ">📈 Insurance Charge Prediction</div>") true;;
  st_markdown Main ("<div class=" ++ dq ++ "subtitle" ++ dq ++ ">Fill the details below</div>") true;;
  '(age, bmi, children, smoker, sex, region) ← predict_form;
  let table := input_df age bmi children smoker sex region in
  prediction ← predict_submit model table;
  mret (table, prediction).

(** Lines 138-155, the body of the [try]. *)
Definition analytics_charts : Script unit :=
  df ← pd_read_csv_path "insurance.csv";
  render Main (Tabs ["Age vs Charges"; "BMI vs Charges"; "Smoker Impact"]);;
  fig ← lift (px_scatter df "age" "charges" "sex" "Age vs Charges");
  render (Tab 1) (PlotlyChart fig true);;
  fig ← lift (px_scatter df "bmi" "charges" "smoker" "BMI vs Charges");
  render (Tab 2) (PlotlyChart fig true);;
  fig ← lift (px_box df "smoker" "charges" "Smoker vs Non‑Smoker Charges");
  render (Tab 3) (PlotlyChart fig true).

(** Lines 133-158. *)
Definition analytics_page : Script unit :=
  st_markdown Main ("<div class=" ++ dq ++ "title" ++ dq ++ ">📊 Data Analytics</div>") true;;
  try_except analytics_charts
    (render Main
       (Error "Dataset 'insurance.csv' not found. Upload it in the next tab.")).

(** Lines 163-172. *)
Definition upload_page : Script unit :=
  st_markdown Main ("<div class=" ++ dq ++ "title" ++ dq ++ ">📁 Upload Your Dataset</div>") true;;
  uploaded ← file_uploader Main "Upload CSV" "csv";
  match uploaded with
  | Some content =>
      df ← lift (read_csv content);
      render Main (Write "### Preview");;
      render Main (Dataframe df);;
      render Main (Success "Dataset loaded successfully!")
  | None => mret tt
  end.

(** Lines 20-177: everything after [model = load_model()]. *)
Definition pages (model : Model) : Script unit :=
  emit (PageConfig "Insurance Charge Predictor" "wide" "💼");;
  st_markdown Main css true;;
  menu ← radio Sidebar "Navigation" menu_options;
  animation ← try_except (a ← load_lottie "animation.json"; mret (Some a))
                 (mret None);
  (if String.eqb menu "🏠 Home" then home_page animation else mret tt);;
  (if String.eqb menu "📈 Predict" then predict_page model;; mret tt
   else mret tt);;
  (if String.eqb menu "📊 Analytics" then analytics_page else mret tt);;
  (if String.eqb menu "📁 Upload Dataset" then upload_page else mret tt);;
  st_markdown Main ("<div class=" ++ dq ++ "footer" ++ dq ++ ">Made with ❤️ using Streamlit</div>") true.

(** The whole file, one run from top to bottom. *)
Definition script : Script unit :=
  model ← load_model; pages model.

(** ** The process: Streamlit reruns the script on every interaction

    An interaction brings the widget values of the browser; the working
    directory is whatever it is at that moment.  The resource store and the
    record of what happened persist from run to run.  An exception that
    leaves the script ends the run and is shown on the page. *)
Definition interaction : Type := gmap string string * gmap string widget_value.

Definition rerun (w : world) (i : interaction) : world :=
  let w0 := {| files := i.1; frontend := i.2;
               resource_cache := resource_cache w; trace := trace w |} in
  match script w0 with
  | (Ok _, w') => w'
  | (Raise e, w') => log (Render Main (Exception e)) w'
  end.

Definition boot : world :=
  {| files := ∅; frontend := ∅; resource_cache := ∅; trace := [] |}.

Definition process (interactions : list interaction) : world :=
  fold_left rerun interactions boot.

End Pages.

(** ** Parts of the script, named

    The same fragments as in [pages], cut where the proofs need them. *)

(** Line 177. *)
Definition footer : string :=
  "<div class=" ++ dq ++ "footer" ++ dq ++ ">Made with ❤️ using Streamlit</div>".


(** Line 158. *)
Definition dataset_missing : string :=
  "Dataset 'insurance.csv' not found. Upload it in the next tab.".

(** What lines 20-43 add to the page. *)
Definition page_top : list event :=
  [ PageConfig "Insurance Charge Predictor" "wide" "💼";
    Render Main (Markdown css true);
    Render Sidebar (Radio "Navigation" menu_options) ].


Definition analytics_head : event :=
  Render Main (Markdown ("<div class=" ++ dq ++ "title" ++ dq ++ ">📊 Data Analytics</div>") true).

Definition upload_head : list event :=
  [ Render Main (Markdown ("<div class=" ++ dq ++ "title" ++ dq ++ ">📁 Upload Your Dataset</div>") true);
    Render Main (FileUploader "Upload CSV" "csv") ].

Section PageParts.
Context `{ext : Externals}.

(** Lines 54-57: [animation] after the [try]. *)
Definition animation_try : Script (option json) :=
  try_except (a ← load_lottie "animation.json"; mret (Some a)) (mret None).

(** Lines 59-177, for the values of [menu] and [animation]. *)
Definition pages_after (model : Model) (menu : string)
    (animation : option json) : Script unit :=
  (if String.eqb menu "🏠 Home" then home_page animation else mret tt);;
  (if String.eqb menu "📈 Predict" then predict_page model;; mret tt
   else mret tt);;
  (if String.eqb menu "📊 Analytics" then analytics_page else mret tt);;
  (if String.eqb menu "📁 Upload Dataset" then upload_page else mret tt);;
  st_markdown Main footer true.

(** Lines 54-177, for the value [menu] the radio returned. *)
Definition pages_from (model : Model) (menu : string) : Script unit :=
  animation_try ≫= pages_after model menu.


End PageParts.

(** The artifact cannot be loaded from this working directory. *)
Definition unloadable `{ext : Externals} (fs : gmap string string) : Prop :=
  fs !! "optimized_random_forest_model.joblib" = None \/
  exists content e,
    fs !! "optimized_random_forest_model.joblib" = Some content /\
    joblib_load content = Raise e.

(** No model is called. *)
Definition no_score (e : event) : Prop :=
  match e with
  | Score _ _ => False
  | _ => True
  end.

(** The file [path] is not opened. *)
Definition not_opening (path : string) (e : event) : Prop :=
  match e with
  | Open p => p <> path
  | _ => True
  end.

(** ** Names for what the Predict page reads and renders *)

(** What the form renders. *)
Definition form_shown : list event :=
  [ Render Main (Columns 3);
    Render (Column 1) (NumberInput "Age" (PyInt 0) (PyInt 100));
    Render (Column 1) (NumberInput "BMI" (PyFloat 0) (PyFloat 80));
    Render (Column 2) (NumberInput "Children" (PyInt 0) (PyInt 10));
    Render (Column 2) (Selectbox "Smoker" ["yes"; "no"]);
    Render (Column 3) (Selectbox "Sex" ["male"; "female"]);
    Render (Column 3) (Selectbox "Region" ["northwest"; "southeast"; "southwest"]) ].

(** The six widget values of a browser state. *)
Definition form_read `{ext : Externals} (fe : gmap string widget_value)
    (age bmi children : pyval) (smoker sex region : string) : Prop :=
  entered "Age" (PyInt 0) (PyInt 100) fe = Ok age /\
  entered "BMI" (PyFloat 0) (PyFloat 80) fe = Ok bmi /\
  entered "Children" (PyInt 0) (PyInt 10) fe = Ok children /\
  chosen "Smoker" ["yes"; "no"] fe = Ok smoker /\
  chosen "Sex" ["male"; "female"] fe = Ok sex /\
  chosen "Region" ["northwest"; "southeast"; "southwest"] fe = Ok region.

(** The two headings of the page. *)
Definition page_head : list event :=
  [ Render Main
      (Markdown ("<div class=" ++ dq ++ "title" ++ dq
                 ++ ">📈 Insurance Charge Prediction</div>") true);
    Render Main
      (Markdown ("<div class=" ++ dq ++ "subtitle" ++ dq
                 ++ ">Fill the details below</div>") true) ].

(** ** What a fragment may do

    [confined P c]: whatever the world, running [c] leaves the working
    directory, the browser state and the resource store as they were, and
    every event it adds satisfies [P]. *)
Definition confined {A : Type} (P : event -> Prop) (c : Script A) : Prop :=
  forall w,
    files (c w).2 = files w /\
    frontend (c w).2 = frontend w /\
    resource_cache (c w).2 = resource_cache w /\
    exists added : list event,
      trace (c w).2 = (trace w ++ added)%list /\ Forall P added.

Definition is_open (path : string) (e : event) : bool :=
  match e with
  | Open p => String.eqb p path
  | _ => false
  end.

(** How many times [path] was opened. *)
Definition opens (path : string) (t : list event) : nat :=
  length (filter (fun e => is_open path e = true) t).

(** No file is opened. *)
Definition no_file (e : event) : Prop :=
  match e with
  | Open _ => False
  | _ => True
  end.

(** No file is opened and no model is called. *)
Definition display_only (e : event) : Prop :=
  match e with
  | Open _ | Score _ _ => False
  | _ => True
  end.

(** The artifact is not opened and no model but [m] is called. *)
Definition served_by (m : Model) (e : event) : Prop :=
  match e with
  | Open p => p <> "optimized_random_forest_model.joblib"
  | Score m' _ => m' = m
  | _ => True
  end.

(** The bodies of the markdown elements rendered, in order. *)
Definition markdowns (t : list event) : list string :=
  omap (fun e => match e with
                 | Render _ (Markdown body _) => Some body
                 | _ => None
                 end) t.

(** No model but [m] is called. *)
Definition scored_by (m : Model) (e : event) : Prop :=
  match e with
  | Score m' _ => m' = m
  | _ => True
  end.

(** What holds of the process once the handle [m] is stored. *)
Definition warm (m : Model) (w : world) : Prop :=
  opens "optimized_random_forest_model.joblib" (trace w) = 1%nat /\
  resource_cache w = {[ "load_model" := m ]} /\
  Forall (scored_by m) (trace w).

(** The process after [k] attempts to open the artifact: nothing stored
    yet, or the handle [m] stored. *)
Definition cold (k : nat) (m : Model) (w : world) : Prop :=
  opens "optimized_random_forest_model.joblib" (trace w) = k /\
  resource_cache w = ∅ /\
  Forall (scored_by m) (trace w).

Definition loaded_after (k : nat) (m : Model) (w : world) : Prop :=
  opens "optimized_random_forest_model.joblib" (trace w) = k /\
  resource_cache w = {[ "load_model" := m ]} /\
  Forall (scored_by m) (trace w).

(** The labels of the six widgets of the Predict form. *)
Definition form_labels : list string :=
  ["Age"; "BMI"; "Children"; "Smoker"; "Sex"; "Region"].

Definition same_form (fe1 fe2 : gmap string widget_value) : Prop :=
  forall label, In label form_labels -> fe1 !! label = fe2 !! label.

(** ** A concrete instance, to run the script on *)

Module Toy.

Definition to_float (z : Z) : float := PrimFloat.of_uint63 (Uint63.of_Z z).

(** A model that scores the single row of an eight-column table. *)
Definition score (base : float) (table : DataFrame) : outcome (list float) :=
  match row 0 table with
  | Some [PyInt age; PyFloat bmi; PyInt children; PyInt smoker; PyInt _;
          PyInt _; PyInt _; PyInt _] =>
      Ok [(base + 250 * to_float age + 100.0625 * bmi
           + 500 * to_float children + 20000 * to_float smoker)%float]
  | _ => Raise (LibraryError "predict")
  end.

Definition forest : Model := {| predict := score 1000 |}.
Definition retrained : Model := {| predict := score 2000 |}.

Definition sheet : DataFrame :=
  [ ("age", [PyInt 19; PyInt 33]);
    ("sex", [PyStr "female"; PyStr "male"]);
    ("bmi", [PyFloat 27.5; PyFloat 22.75]);
    ("smoker", [PyStr "yes"; PyStr "no"]);
    ("charges", [PyFloat 16884.921875; PyFloat 21984.5]) ].

Definition has_columns (df : DataFrame) (names : list string) : bool :=
  forallb (fun n => bool_decide (is_Some (column n df))) names.

#[export] Instance ext : Externals := {|
  joblib_load content :=
    if String.eqb content "forest" then Ok forest
    else if String.eqb content "retrained" then Ok retrained
    else Raise (LibraryError "joblib");
  json_load content :=
    if String.eqb content "{}" then Ok (JDict [])
    else if String.eqb content "[1]" then Ok (JList [JInt 1])
    else Raise (LibraryError "json");
  read_csv content :=
    if String.eqb content "sheet" then Ok sheet
    else Raise (LibraryError "pandas");
  px_scatter df x y color title :=
    if has_columns df [x; y; color] then Ok {| fig_json := title |}
    else Raise (LibraryError "plotly");
  px_box df x y title :=
    if has_columns df [x; y] then Ok {| fig_json := title |}
    else Raise (LibraryError "plotly");
  lottie_check animation height :=
    match animation with
    | JDict _ => Ok tt
    | _ => Raise (StreamlitAPIException "st_lottie")
    end;
  number_fallback lo hi other := Ok lo
|}.

Definition artifact : string := "optimized_random_forest_model.joblib".

(** A working directory with the artifact only, and one where the artifact
    was replaced after the first run. *)
Definition disk : gmap string string := {[ artifact := "forest" ]}.
Definition disk_later : gmap string string := {[ artifact := "retrained" ]}.

(** The browser state of the spec's example request, Predict pressed. *)
Definition example_request : gmap string widget_value :=
  <["Navigation" := Choice 1]>
  (<["Age" := Number (PyInt 35)]>
  (<["BMI" := Number (PyFloat 27.5)]>
  (<["Children" := Number (PyInt 2)]>
  (<["Smoker" := Choice 0]>
  (<["Sex" := Choice 1]>
  (<["Region" := Choice 1]>
  (<["Predict" := Clicked true]> ∅))))))).

Definition at_page (i : nat) : gmap string widget_value :=
  {[ "Navigation" := Choice i ]}.

Definition world_of (fs : gmap string string)
    (fe : gmap string widget_value) : world :=
  {| files := fs; frontend := fe; resource_cache := ∅; trace := [] |}.

End Toy.

(** A second instance: every CSV parses to a table without the smoker
    column, so the second chart of the Analytics page cannot be built. *)
Module Sparse.

Definition sheet : DataFrame :=
  [ ("age", [PyInt 19; PyInt 33]);
    ("sex", [PyStr "female"; PyStr "male"]);
    ("bmi", [PyFloat 27.5; PyFloat 22.75]);
    ("charges", [PyFloat 16884.921875; PyFloat 21984.5]) ].

Definition ext : Externals := {|
  joblib_load content := Ok Toy.forest;
  json_load content := Ok JNull;
  read_csv content := Ok sheet;
  px_scatter df x y color title :=
    if Toy.has_columns df [x; y; color] then Ok {| fig_json := title |}
    else Raise (LibraryError "plotly");
  px_box df x y title :=
    if Toy.has_columns df [x; y] then Ok {| fig_json := title |}
    else Raise (LibraryError "plotly");
  lottie_check animation height := Ok tt;
  number_fallback lo hi other := Ok lo
|}.

End Sparse.

(** ** Encoder: categorical fields *)

Lemma flag_eq s lit : s = lit -> flag s lit = PyInt 1.
Proof. intros ->. unfold flag. now rewrite String.eqb_refl. Qed.

Lemma flag_neq s lit : s <> lit -> flag s lit = PyInt 0.
Proof.
  intros Hne. unfold flag.
  destruct (String.eqb_spec s lit); [contradiction | reflexivity].
Qed.

Lemma flag_one_iff s lit : flag s lit = PyInt 1 <-> s = lit.
Proof.
  unfold flag. destruct (String.eqb_spec s lit); split; intros H;
    try reflexivity; try assumption; try discriminate; contradiction.
Qed.

Lemma region_flags_input_df age bmi children smoker sex region :
  region_flags (input_df age bmi children smoker sex region)
  = Some [flag region "northwest"; flag region "southeast";
          flag region "southwest"].
Proof. reflexivity. Qed.

(** C1: a region among northwest, southeast, southwest sets exactly the flag
    of that region to 1 and the other two to 0; every other string (such as
    northeast) leaves all three flags 0. *)
Theorem region_one_hot age bmi children smoker sex region :
  let flags := region_flags (input_df age bmi children smoker sex region) in
  (region = "northwest" -> flags = Some [PyInt 1; PyInt 0; PyInt 0]) /\
  (region = "southeast" -> flags = Some [PyInt 0; PyInt 1; PyInt 0]) /\
  (region = "southwest" -> flags = Some [PyInt 0; PyInt 0; PyInt 1]) /\
  (In region ["northwest"; "southeast"; "southwest"] ->
     exists cells, flags = Some cells /\ count_ones cells = 1%nat) /\
  (~ In region ["northwest"; "southeast"; "southwest"] ->
     flags = Some [PyInt 0; PyInt 0; PyInt 0]).
Proof.
  cbv zeta. rewrite region_flags_input_df.
  repeat split.
  - intros ->. reflexivity.
  - intros ->. reflexivity.
  - intros ->. reflexivity.
  - intros [<- | [<- | [<- | []]]]; eexists; (split; [reflexivity |]);
      reflexivity.
  - intros Hout.
    rewrite !flag_neq; [reflexivity | | |];
      intros ->; apply Hout; simpl; tauto.
Qed.

Lemma region_one_hot_witness :
  region_flags (input_df (PyInt 35) (PyFloat 27.5) (PyInt 2) "yes" "female"
                  "southeast")
    = Some [PyInt 0; PyInt 1; PyInt 0] /\
  region_flags (input_df (PyInt 35) (PyFloat 27.5) (PyInt 2) "yes" "female"
                  "northeast")
    = Some [PyInt 0; PyInt 0; PyInt 0].
Proof.
  split.
  - apply (region_one_hot (PyInt 35) (PyFloat 27.5) (PyInt 2) "yes" "female"
             "southeast"). reflexivity.
  - apply (region_one_hot (PyInt 35) (PyFloat 27.5) (PyInt 2) "yes" "female"
             "northeast").
    simpl. intros [H | [H | [H | []]]]; discriminate H.
Defined.

(** C2: the smoker cell is 1 exactly when the smoker string is "yes"; every
    other string, "no" included, gives 0. *)
Theorem smoker_flag_iff age bmi children smoker sex region :
  let df := input_df age bmi children smoker sex region in
  (column "smoker" df = Some [PyInt 1] <-> smoker = "yes") /\
  (smoker <> "yes" -> column "smoker" df = Some [PyInt 0]) /\
  column "smoker" (input_df age bmi children "no" sex region)
    = Some [PyInt 0].
Proof.
  cbv zeta. change (column "smoker" (input_df age bmi children smoker sex region))
    with (Some [flag smoker "yes"]).
  repeat split.
  - intros H. apply flag_one_iff. congruence.
  - intros ->. reflexivity.
  - intros Hne. now rewrite flag_neq.
Qed.

Lemma smoker_flag_iff_witness :
  column "smoker"
    (input_df (PyInt 35) (PyFloat 27.5) (PyInt 2) "yes" "female" "southeast")
  = Some [PyInt 1] /\
  column "smoker"
    (input_df (PyInt 35) (PyFloat 27.5) (PyInt 2) "maybe" "female" "southeast")
  = Some [PyInt 0].
Proof.
  split.
  - destruct (smoker_flag_iff (PyInt 35) (PyFloat 27.5) (PyInt 2) "yes"
                "female" "southeast") as (Hiff & _ & _).
    apply Hiff. reflexivity.
  - destruct (smoker_flag_iff (PyInt 35) (PyFloat 27.5) (PyInt 2) "maybe"
                "female" "southeast") as (_ & Hother & _).
    apply Hother. discriminate.
Defined.

(** C3: the sex_male cell is 1 exactly when the sex string is "male"; every
    other string, "female" included, gives 0. *)
Theorem sex_male_flag_iff age bmi children smoker sex region :
  let df := input_df age bmi children smoker sex region in
  (column "sex_male" df = Some [PyInt 1] <-> sex = "male") /\
  (sex <> "male" -> column "sex_male" df = Some [PyInt 0]) /\
  column "sex_male" (input_df age bmi children smoker "female" region)
    = Some [PyInt 0].
Proof.
  cbv zeta. change (column "sex_male" (input_df age bmi children smoker sex region))
    with (Some [flag sex "male"]).
  repeat split.
  - intros H. apply flag_one_iff. congruence.
  - intros ->. reflexivity.
  - intros Hne. now rewrite flag_neq.
Qed.

Lemma sex_male_flag_iff_witness :
  column "sex_male"
    (input_df (PyInt 35) (PyFloat 27.5) (PyInt 2) "yes" "male" "southeast")
  = Some [PyInt 1] /\
  column "sex_male"
    (input_df (PyInt 35) (PyFloat 27.5) (PyInt 2) "yes" "Male" "southeast")
  = Some [PyInt 0].
Proof.
  split.
  - destruct (sex_male_flag_iff (PyInt 35) (PyFloat 27.5) (PyInt 2) "yes"
                "male" "southeast") as (Hiff & _ & _).
    apply Hiff. reflexivity.
  - destruct (sex_male_flag_iff (PyInt 35) (PyFloat 27.5) (PyInt 2) "yes"
                "Male" "southeast") as (_ & Hother & _).
    apply Hother. discriminate.
Defined.

(** C4: age, bmi and children are copied into the first three cells of the
    row as they are, whatever their value: the encoder checks no range. *)
Theorem numeric_passthrough age bmi children smoker sex region :
  let df := input_df age bmi children smoker sex region in
  column "age" df = Some [age] /\
  column "bmi" df = Some [bmi] /\
  column "children" df = Some [children] /\
  firstn 3 (columns df) = ["age"; "bmi"; "children"] /\
  (exists rest, row 0 df = Some (age :: bmi :: children :: rest)).
Proof.
  cbv zeta. repeat split; try reflexivity.
  eexists. reflexivity.
Qed.

(** The example request of the specification. *)
Example example_request_row :
  row 0 (input_df (PyInt 35) (PyFloat 27.5) (PyInt 2) "yes" "female"
           "southeast")
  = Some [PyInt 35; PyFloat 27.5; PyInt 2; PyInt 1; PyInt 0; PyInt 0;
          PyInt 1; PyInt 0].
Proof. reflexivity. Qed.

(** Values no widget of the form would send go through all the same. *)
Example out_of_range_row :
  row 0 (input_df (PyInt (-5)) (PyFloat 1000000) (PyInt 99) "maybe" "other"
           "northeast")
  = Some [PyInt (-5); PyFloat 1000000; PyInt 99; PyInt 0; PyInt 0; PyInt 0;
          PyInt 0; PyInt 0].
Proof. reflexivity. Qed.

(** ** Running fragments *)

Lemma bind_run {A B : Type} (c : Script A) (k : A -> Script B) (w : world) :
  (c ≫= k) w
  = match c w with
    | (Ok a, w') => k a w'
    | (Raise e, w') => (Raise e, w')
    end.
Proof. reflexivity. Qed.

Lemma log_as_logs e w : log e w = logs [e] w.
Proof. reflexivity. Qed.

Lemma logs_logs evs1 evs2 w : logs evs2 (logs evs1 w) = logs (evs1 ++ evs2) w.
Proof. unfold logs; simpl. now rewrite app_assoc. Qed.

(** Flatten nested [log]s into one [logs]. *)
Ltac flatten_logs :=
  rewrite ?log_as_logs, ?logs_logs; cbn [app].

(** ** Confinement is compositional *)

Section Confined.
Context (P : event -> Prop).

Lemma confined_ret {A : Type} (a : A) : confined P (mret a).
Proof.
  intros w. repeat split. exists []. split; [now rewrite app_nil_r | constructor].
Qed.

Lemma confined_raise {A : Type} (e : exn) : confined P (@raise A e).
Proof.
  intros w. repeat split. exists []. split; [now rewrite app_nil_r | constructor].
Qed.

Lemma confined_lift {A : Type} (r : outcome A) : confined P (lift r).
Proof.
  intros w. repeat split. exists []. split; [now rewrite app_nil_r | constructor].
Qed.

Lemma confined_ask {A : Type} (value : gmap string widget_value -> outcome A) :
  confined P (ask value).
Proof.
  intros w. repeat split. exists []. split; [now rewrite app_nil_r | constructor].
Qed.

Lemma confined_emit (e : event) : P e -> confined P (emit e).
Proof.
  intros He w. repeat split. exists [e]. split; [reflexivity | now constructor].
Qed.

Lemma confined_open_read (path : string) :
  P (Open path) -> confined P (open_read path).
Proof.
  intros He w. unfold open_read.
  destruct (files w !! path); repeat split;
    (exists [Open path]; split; [reflexivity | now constructor]).
Qed.

Lemma confined_bind {A B : Type} (c : Script A) (k : A -> Script B) :
  confined P c -> (forall a, confined P (k a)) -> confined P (c ≫= k).
Proof.
  intros Hc Hk w. rewrite bind_run.
  destruct (Hc w) as (Hf & Hb & Hr & t1 & Ht1 & HP1).
  destruct (c w) as [[a | e] w1]; simpl in *.
  - destruct (Hk a w1) as (Hf' & Hb' & Hr' & t2 & Ht2 & HP2).
    repeat split; try congruence.
    exists (t1 ++ t2)%list. split.
    + rewrite Ht2, Ht1. now rewrite app_assoc.
    + now apply Forall_app.
  - repeat split; try assumption. now exists t1.
Qed.

Lemma confined_try_except {A : Type} (body handler : Script A) :
  confined P body -> confined P handler -> confined P (try_except body handler).
Proof.
  intros Hc Hh w. unfold try_except.
  destruct (Hc w) as (Hf & Hb & Hr & t1 & Ht1 & HP1).
  destruct (body w) as [[a | e] w1]; simpl in *.
  - repeat split; try assumption. now exists t1.
  - destruct (Hh w1) as (Hf' & Hb' & Hr' & t2 & Ht2 & HP2).
    repeat split; try congruence.
    exists (t1 ++ t2)%list. split.
    + rewrite Ht2, Ht1. now rewrite app_assoc.
    + now apply Forall_app.
Qed.

Lemma confined_subscript {A : Type} (l : list A) (i : nat) :
  confined P (subscript l i).
Proof.
  unfold subscript. destruct (nth_error l i);
    [apply confined_ret | apply confined_raise].
Qed.

Hypothesis renders : forall c e, P (Render c e).

Lemma confined_render c e : confined P (render c e).
Proof. apply confined_emit, renders. Qed.

Lemma confined_widget {A : Type} c e
    (value : gmap string widget_value -> outcome A) :
  confined P (widget c e value).
Proof.
  apply confined_bind; [apply confined_render | intros _; apply confined_ask].
Qed.

End Confined.

(** ** The Predict page *)

Section PredictPage.
Context `{ext : Externals}.

Ltac run_form :=
  unfold predict_form, number_input, selectbox;
  cbv [mbind mret Script_bind Script_ret widget render emit ask];
  cbn [frontend log].

Lemma predict_form_returns w age bmi children smoker sex region :
  form_read (frontend w) age bmi children smoker sex region ->
  predict_form w
  = (Ok (age, bmi, children, smoker, sex, region), logs form_shown w).
Proof.
  intros (E1 & E2 & E3 & E4 & E5 & E6). run_form.
  rewrite E1, E2, E3, E4, E5, E6. flatten_logs. reflexivity.
Qed.

Lemma predict_form_ok w age bmi children smoker sex region w' :
  predict_form w = (Ok (age, bmi, children, smoker, sex, region), w') ->
  form_read (frontend w) age bmi children smoker sex region /\
  w' = logs form_shown w.
Proof.
  run_form. unfold form_read.
  destruct (entered "Age" _ _ _); [| discriminate].
  destruct (entered "BMI" _ _ _); [| discriminate].
  destruct (entered "Children" _ _ _); [| discriminate].
  destruct (chosen "Smoker" _ _); [| discriminate].
  destruct (chosen "Sex" _ _); [| discriminate].
  destruct (chosen "Region" _ _); [| discriminate].
  intros H. injection H as <- <- <- <- <- <- <-.
  flatten_logs. repeat split; reflexivity.
Qed.

(** What pressing the button does, whatever the model answers. *)
Lemma predict_submit_pressed model table w :
  clicked "Predict" (frontend w) = Ok true ->
  predict_submit model table w
  = match predict model table with
    | Ok (y :: _) =>
        (Ok (Some y),
         logs [Render Main (Button "Predict" true); Score model table;
               Render Main (Markdown (result_card y) true)] w)
    | Ok [] =>
        (Raise IndexError,
         logs [Render Main (Button "Predict" true); Score model table] w)
    | Raise e =>
        (Raise e,
         logs [Render Main (Button "Predict" true); Score model table] w)
    end.
Proof.
  intros Hc. unfold predict_submit, button, model_predict, st_markdown.
  cbv [mbind mret Script_bind Script_ret widget render emit ask lift].
  cbn [frontend log]. rewrite Hc.
  destruct (predict model table) as [[| y ys] | e]; cbn;
    flatten_logs; reflexivity.
Qed.

Lemma predict_submit_idle model table w :
  clicked "Predict" (frontend w) = Ok false ->
  predict_submit model table w
  = (Ok None, logs [Render Main (Button "Predict" true)] w).
Proof.
  intros Hc. unfold predict_submit, button.
  cbv [mbind mret Script_bind Script_ret widget render emit ask].
  cbn [frontend log]. rewrite Hc. reflexivity.
Qed.

(** The page is its headings, the form, the encoder and the button. *)
Lemma predict_page_run model w :
  predict_page model w
  = match predict_form (logs page_head w) with
    | (Ok (age, bmi, children, smoker, sex, region), w1) =>
        match predict_submit model
                (input_df age bmi children smoker sex region) w1 with
        | (Ok prediction, w2) =>
            (Ok (input_df age bmi children smoker sex region, prediction), w2)
        | (Raise e, w2) => (Raise e, w2)
        end
    | (Raise e, w1) => (Raise e, w1)
    end.
Proof.
  unfold predict_page, st_markdown at 1 2.
  cbv [mbind mret Script_bind Script_ret render emit].
  flatten_logs. fold page_head.
  destruct (predict_form (logs page_head w)) as [[[[[[[a b] c] s] x] r] | e] w1];
    reflexivity.
Qed.

End PredictPage.

(** ** Widgets read only their own label *)

Lemma entered_same `{ext : Externals} label lo hi
    (fe1 fe2 : gmap string widget_value) :
  fe1 !! label = fe2 !! label ->
  entered label lo hi fe1 = entered label lo hi fe2.
Proof. unfold entered. now intros ->. Qed.

Lemma chosen_same label options (fe1 fe2 : gmap string widget_value) :
  fe1 !! label = fe2 !! label ->
  chosen label options fe1 = chosen label options fe2.
Proof. unfold chosen. now intros ->. Qed.

(** A select box returns one of the options it offers. *)
Lemma chosen_in_options label options (fe : gmap string widget_value) o :
  chosen label options fe = Ok o -> In o options.
Proof.
  unfold chosen. destruct (fe !! label) as [[v | i | b | c] |].
  - discriminate.
  - destruct (nth_error options i) eqn:E; [| discriminate].
    intros [= <-]. eapply nth_error_In, E.
  - discriminate.
  - discriminate.
  - destruct options; [discriminate |]. intros [= <-]. now left.
Qed.

Lemma form_read_same `{ext : Externals}
    (fe1 fe2 : gmap string widget_value)
    age bmi children smoker sex region :
  same_form fe1 fe2 ->
  form_read fe1 age bmi children smoker sex region ->
  form_read fe2 age bmi children smoker sex region.
Proof.
  intros Hs (E1 & E2 & E3 & E4 & E5 & E6).
  unfold form_read.
  rewrite <- (entered_same "Age" _ _ fe1 fe2),
          <- (entered_same "BMI" _ _ fe1 fe2),
          <- (entered_same "Children" _ _ fe1 fe2),
          <- (chosen_same "Smoker" _ fe1 fe2),
          <- (chosen_same "Sex" _ fe1 fe2),
          <- (chosen_same "Region" _ fe1 fe2);
    try (apply Hs; unfold form_labels; simpl; tauto).
  repeat split; assumption.
Qed.

(** ** What the pages may do *)

Ltac confine :=
  repeat match goal with
    | |- confined _ (mbind _ _) => apply confined_bind; [| intros ?]
    | |- confined _ (try_except _ _) => apply confined_try_except
    | |- confined _ (widget _ _ _) => apply confined_widget; solve [auto]
    | |- confined _ (render _ _) => apply confined_render; solve [auto]
    | |- confined _ (emit _) => apply confined_emit; solve [auto]
    | |- confined _ (open_read _) => apply confined_open_read; solve [auto]
    | |- confined _ (mret _) => apply confined_ret
    | |- confined _ (raise _) => apply confined_raise
    | |- confined _ (lift _) => apply confined_lift
    | |- confined _ (subscript _ _) => apply confined_subscript
    | |- confined _ (match ?x with _ => _ end) => destruct x
    end.

Section PageConfinement.
Context `{ext : Externals}.
Context (P : event -> Prop).
Hypothesis renders : forall c e, P (Render c e).

Lemma confined_predict_form : confined P predict_form.
Proof. unfold predict_form, number_input, selectbox. confine. Qed.

Lemma confined_predict_submit model table :
  P (Score model table) -> confined P (predict_submit model table).
Proof.
  intros Hs. unfold predict_submit, button, model_predict, st_markdown.
  confine.
Qed.

Lemma confined_predict_page model :
  (forall table, P (Score model table)) -> confined P (predict_page model).
Proof.
  intros Hs. unfold predict_page, st_markdown.
  apply confined_bind; [confine | intros _].
  apply confined_bind; [confine | intros _].
  apply confined_bind; [apply confined_predict_form | intros six].
  destruct six as [[[[[age bmi] children] smoker] sex] region].
  apply confined_bind; [now apply confined_predict_submit | intros ?].
  apply confined_ret.
Qed.

End PageConfinement.

(** ** The Predict page: claims *)

(** C5: with the button pressed, the value bound to [prediction] is the
    first element of what the model returns for the one-row table of the
    eight columns in their fixed order; the value is that element itself,
    and the two-decimal text appears only inside the rendered card. *)
Theorem predict_first_output `{ext : Externals}
    model w age bmi children smoker sex region y ys :
  form_read (frontend w) age bmi children smoker sex region ->
  clicked "Predict" (frontend w) = Ok true ->
  let table :=
    [ ("age", [age]); ("bmi", [bmi]); ("children", [children]);
      ("smoker", [flag smoker "yes"]); ("sex_male", [flag sex "male"]);
      ("region_northwest", [flag region "northwest"]);
      ("region_southeast", [flag region "southeast"]);
      ("region_southwest", [flag region "southwest"]) ] in
  predict model table = Ok (y :: ys) ->
  predict_page model w
  = (Ok (table, Some y),
     logs (page_head ++ form_shown ++
           [ Render Main (Button "Predict" true);
             Score model table;
             Render Main (Markdown (result_card y) true) ]) w).
Proof.
  intros Hform Hclick table Hpred.
  rewrite predict_page_run.
  rewrite (predict_form_returns _ age bmi children smoker sex region)
    by exact Hform.
  change (input_df age bmi children smoker sex region) with table.
  rewrite predict_submit_pressed by exact Hclick.
  rewrite Hpred. rewrite !logs_logs. reflexivity.
Qed.

Lemma predict_first_output_witness :
  (predict_page (ext := Toy.ext) Toy.forest
     (Toy.world_of Toy.disk Toy.example_request)).1
  = Ok ([ ("age", [PyInt 35]); ("bmi", [PyFloat 27.5]);
          ("children", [PyInt 2]); ("smoker", [PyInt 1]);
          ("sex_male", [PyInt 0]); ("region_northwest", [PyInt 0]);
          ("region_southeast", [PyInt 1]); ("region_southwest", [PyInt 0]) ],
        Some 33501.71875%float) /\
  result_card 33501.71875%float
  = "
            <div class='result-card'>
                <h3>Predicted Charge</h3>
                <h1><b>$33501.72</b></h1>
            </div>
            ".
Proof.
  split; [| vm_compute; reflexivity].
  rewrite (predict_first_output (ext := Toy.ext) Toy.forest
             (Toy.world_of Toy.disk Toy.example_request)
             (PyInt 35) (PyFloat 27.5) (PyInt 2) "yes" "female" "southeast"
             33501.71875%float []).
  - reflexivity.
  - repeat split; vm_compute; reflexivity.
  - vm_compute; reflexivity.
  - vm_compute; reflexivity.
Defined.

(** C10: the region of a table built by the Predict page comes from the
    select box, so it is one of the three offered regions, and exactly one
    of the three region flags is 1: the all-zero encoding is never built. *)
Theorem ui_region_one_hot `{ext : Externals} model w table prediction w' :
  predict_page model w = (Ok (table, prediction), w') ->
  exists region cells,
    chosen "Region" ["northwest"; "southeast"; "southwest"] (frontend w)
      = Ok region /\
    In region ["northwest"; "southeast"; "southwest"] /\
    region_flags table = Some cells /\
    count_ones cells = 1%nat /\
    cells <> [PyInt 0; PyInt 0; PyInt 0].
Proof.
  rewrite predict_page_run.
  destruct (predict_form (logs page_head w))
    as [[[[[[[age bmi] children] smoker] sex] region] | e] w1] eqn:Hform;
    [| discriminate].
  destruct (predict_submit model _ w1) as [[p | e] w2]; [| discriminate].
  intros [= <- <- <-].
  apply predict_form_ok in Hform as [(_ & _ & _ & _ & _ & Hregion) _].
  cbn [frontend logs] in Hregion.
  pose proof (chosen_in_options _ _ _ _ Hregion) as Hin.
  exists region. rewrite region_flags_input_df.
  destruct Hin as [<- | [<- | [<- | []]]];
    (eexists; split; [exact Hregion |]; split; [simpl; tauto |];
     split; [reflexivity |]; split; [reflexivity | discriminate]).
Qed.

Lemma ui_region_one_hot_witness :
  exists region cells,
    chosen "Region" ["northwest"; "southeast"; "southwest"]
      (frontend (Toy.world_of Toy.disk Toy.example_request)) = Ok region /\
    In region ["northwest"; "southeast"; "southwest"] /\
    region_flags
      (input_df (PyInt 35) (PyFloat 27.5) (PyInt 2) "yes" "female" "southeast")
      = Some cells /\
    count_ones cells = 1%nat /\
    cells <> [PyInt 0; PyInt 0; PyInt 0].
Proof.
  apply (ui_region_one_hot (ext := Toy.ext) Toy.forest
           (Toy.world_of Toy.disk Toy.example_request) _
           (Some 33501.71875%float)
           (predict_page (ext := Toy.ext) Toy.forest
              (Toy.world_of Toy.disk Toy.example_request)).2).
  vm_compute. reflexivity.
Defined.

Lemma predict_submit_stuck model table w e :
  clicked "Predict" (frontend w) = Raise e ->
  predict_submit model table w
  = (Raise e, logs [Render Main (Button "Predict" true)] w).
Proof.
  intros Hc. unfold predict_submit, button.
  cbv [mbind mret Script_bind Script_ret widget render emit ask].
  cbn [frontend log]. rewrite Hc. reflexivity.
Qed.

(** Every way the page can return. *)
Lemma predict_page_ok `{ext : Externals} model w table prediction w' :
  predict_page model w = (Ok (table, prediction), w') ->
  exists age bmi children smoker sex region,
    form_read (frontend w) age bmi children smoker sex region /\
    table = input_df age bmi children smoker sex region /\
    ((clicked "Predict" (frontend w) = Ok false /\
      prediction = None /\
      w' = logs (page_head ++ form_shown
                 ++ [Render Main (Button "Predict" true)]) w)
     \/
     (exists y ys,
        clicked "Predict" (frontend w) = Ok true /\
        predict model table = Ok (y :: ys) /\
        prediction = Some y /\
        w' = logs (page_head ++ form_shown ++
                   [ Render Main (Button "Predict" true);
                     Score model table;
                     Render Main (Markdown (result_card y) true) ]) w)).
Proof.
  rewrite predict_page_run.
  destruct (predict_form (logs page_head w))
    as [[[[[[[age bmi] children] smoker] sex] region] | e] w1] eqn:Hform;
    [| discriminate].
  apply predict_form_ok in Hform as [Hread ->].
  cbn [frontend logs] in Hread.
  intros H. exists age, bmi, children, smoker, sex, region.
  split; [exact Hread |].
  destruct (clicked "Predict" (frontend w)) as [[|] | e] eqn:Hc.
  - rewrite predict_submit_pressed in H by exact Hc.
    destruct (predict model _) as [[| y ys] | e] eqn:Hp; try discriminate.
    injection H as <- <- <-. split; [reflexivity |].
    right. exists y, ys. rewrite !logs_logs.
    repeat split; assumption || reflexivity.
  - rewrite predict_submit_idle in H by exact Hc.
    injection H as <- <- <-. split; [reflexivity |].
    left. rewrite !logs_logs. repeat split; reflexivity.
  - rewrite (predict_submit_stuck _ _ _ e) in H by exact Hc. discriminate.
Qed.

(** C6: the table the Predict page builds is a function of the six form
    values alone: two runs, in worlds that agree on the six widgets and
    differ in anything else (files, resource store, model, other widgets),
    build equal tables.  Building it touches nothing: the run leaves files,
    browser state and resource store as they were and opens no file, and
    when the button is not pressed all it does is render. *)
Theorem encoder_pure_deterministic `{ext : Externals}
    model1 model2 w1 w2 t1 p1 w1' t2 p2 w2' :
  same_form (frontend w1) (frontend w2) ->
  predict_page model1 w1 = (Ok (t1, p1), w1') ->
  predict_page model2 w2 = (Ok (t2, p2), w2') ->
  t1 = t2 /\
  files w1' = files w1 /\
  frontend w1' = frontend w1 /\
  resource_cache w1' = resource_cache w1 /\
  exists added : list event,
    trace w1' = (trace w1 ++ added)%list /\
    Forall no_file added /\
    (p1 = None -> Forall display_only added).
Proof.
  intros Hsame H1 H2.
  apply predict_page_ok in H1
    as (a1 & b1 & c1 & s1 & x1 & r1 & Hread1 & -> & Hrun1).
  apply predict_page_ok in H2
    as (a2 & b2 & c2 & s2 & x2 & r2 & Hread2 & -> & _).
  apply (form_read_same _ _ _ _ _ _ _ _ Hsame) in Hread1.
  destruct Hread1 as (E1 & E2 & E3 & E4 & E5 & E6).
  destruct Hread2 as (F1 & F2 & F3 & F4 & F5 & F6).
  split; [congruence |].
  destruct Hrun1 as [(_ & -> & ->) | (y & ys & _ & _ & -> & ->)];
    cbn [files frontend resource_cache trace logs];
    (repeat split; eexists; split; [reflexivity |]; split;
     [repeat constructor | intros; try discriminate; repeat constructor]).
Qed.

Lemma encoder_pure_deterministic_witness :
  let w1 := Toy.world_of Toy.disk_later
              (delete "Predict" (delete "Navigation" Toy.example_request)) in
  let w1' := (predict_page (ext := Toy.ext) Toy.retrained w1).2 in
  files w1' = files w1 /\
  resource_cache w1' = resource_cache w1 /\
  exists added : list event,
    trace w1' = (trace w1 ++ added)%list /\ Forall display_only added.
Proof.
  intros w1 w1'.
  pose (w2 := Toy.world_of Toy.disk Toy.example_request).
  pose (t := input_df (PyInt 35) (PyFloat 27.5) (PyInt 2) "yes" "female"
               "southeast").
  assert (H1 : predict_page (ext := Toy.ext) Toy.retrained w1
               = (Ok (t, None), w1'))
    by (vm_compute; reflexivity).
  assert (H2 : predict_page (ext := Toy.ext) Toy.forest w2
               = (Ok (t, Some 33501.71875%float),
                  (predict_page (ext := Toy.ext) Toy.forest w2).2))
    by (vm_compute; reflexivity).
  assert (Hsame : same_form (frontend w1) (frontend w2)).
  { intros label [<- | [<- | [<- | [<- | [<- | [<- | []]]]]]];
      vm_compute; reflexivity. }
  destruct (encoder_pure_deterministic _ _ _ _ _ _ _ _ _ _ Hsame H1 H2)
    as (_ & Hfiles & _ & Hstore & added & Htrace & _ & Hshow).
  split; [exact Hfiles |]. split; [exact Hstore |].
  exists added. split; [exact Htrace | apply Hshow; reflexivity].
Defined.

(** ** The Analytics page *)

Section Analytics.
Context `{ext : Externals}.

Lemma analytics_charts_missing w :
  files w !! "insurance.csv" = None ->
  analytics_charts w
  = (Raise (FileNotFoundError "insurance.csv"),
     logs [Open "insurance.csv"] w).
Proof.
  intros Hf. unfold analytics_charts, pd_read_csv_path.
  cbv [mbind Script_bind open_read]. rewrite Hf. reflexivity.
Qed.

Lemma analytics_charts_unparseable w content e :
  files w !! "insurance.csv" = Some content ->
  read_csv content = Raise e ->
  analytics_charts w = (Raise e, logs [Open "insurance.csv"] w).
Proof.
  intros Hf Hp. unfold analytics_charts, pd_read_csv_path.
  cbv [mbind Script_bind open_read lift]. rewrite Hf, Hp. reflexivity.
Qed.

(** The bare [except] leaves nothing uncaught. *)
Lemma analytics_page_returns w : exists w', analytics_page w = (Ok tt, w').
Proof.
  unfold analytics_page, st_markdown.
  cbv [mbind Script_bind render emit try_except].
  destruct (analytics_charts _) as [[[] | e] w1]; eexists; reflexivity.
Qed.

(** C8: when insurance.csv is missing, or present and rejected by the CSV
    parser, the Analytics page returns normally: the exception is caught
    and the page shows the error message after its heading. *)
Theorem analytics_missing_dataset_handled w :
  (files w !! "insurance.csv" = None \/
   exists content e,
     files w !! "insurance.csv" = Some content /\
     read_csv content = Raise e) ->
  analytics_page w
  = (Ok tt,
     logs [ Render Main
              (Markdown ("<div class=" ++ dq ++ "title" ++ dq
                         ++ ">📊 Data Analytics</div>") true);
            Open "insurance.csv";
            Render Main
              (Error "Dataset 'insurance.csv' not found. Upload it in the next tab.") ]
       w).
Proof.
  intros Hbad. unfold analytics_page, st_markdown.
  cbv [mbind Script_bind render emit try_except].
  destruct Hbad as [Hf | (content & e & Hf & Hp)].
  - rewrite analytics_charts_missing by exact Hf.
    flatten_logs. reflexivity.
  - rewrite (analytics_charts_unparseable _ content e) by assumption.
    flatten_logs. reflexivity.
Qed.

End Analytics.

Lemma analytics_missing_dataset_handled_witness :
  (@analytics_page Toy.ext (Toy.world_of Toy.disk (Toy.at_page 2))).1
  = Ok tt /\
  (@analytics_page Toy.ext
     (Toy.world_of {[ "insurance.csv" := "age;bmi" ]} (Toy.at_page 2))).1
  = Ok tt.
Proof.
  split.
  - rewrite (@analytics_missing_dataset_handled Toy.ext
               (Toy.world_of Toy.disk (Toy.at_page 2))).
    + reflexivity.
    + left. vm_compute. reflexivity.
  - rewrite (@analytics_missing_dataset_handled Toy.ext
               (Toy.world_of {[ "insurance.csv" := "age;bmi" ]}
                  (Toy.at_page 2))).
    + reflexivity.
    + right. exists "age;bmi", (LibraryError "pandas").
      split; vm_compute; reflexivity.
Defined.

(** ** The cached model handle *)

Lemma opens_app path (t1 t2 : list event) :
  opens path (t1 ++ t2) = (opens path t1 + opens path t2)%nat.
Proof. unfold opens. now rewrite filter_app, length_app. Qed.

Lemma opens_cons path e (t : list event) :
  opens path (e :: t)
  = ((if is_open path e then 1 else 0) + opens path t)%nat.
Proof.
  unfold opens. rewrite filter_cons.
  destruct (is_open path e); case_decide; simpl; congruence.
Qed.

Lemma served_by_no_open m (added : list event) :
  Forall (served_by m) added ->
  opens "optimized_random_forest_model.joblib" added = 0%nat.
Proof.
  induction 1 as [| e t He _ IH]; [reflexivity |].
  rewrite opens_cons, IH.
  destruct e as [p | | |]; try reflexivity.
  simpl in He. simpl.
  destruct (String.eqb_spec p "optimized_random_forest_model.joblib");
    [contradiction | reflexivity].
Qed.

Lemma served_by_scored_by m (added : list event) :
  Forall (served_by m) added -> Forall (scored_by m) added.
Proof.
  intros H. eapply Forall_impl; [exact H |].
  intros [p | m' table | |]; simpl; auto.
Qed.

Section CachedModel.
Context `{ext : Externals}.

(** Nothing after line 15 opens the artifact, touches the resource store or
    calls another model than the one it was given. *)
Lemma confined_pages m : confined (served_by m) (pages m).
Proof.
  assert (Hr : forall c e, served_by m (Render c e)) by (intros; exact I).
  assert (Hs : forall table, served_by m (Score m table))
    by (intros; reflexivity).
  assert (Ha : served_by m (Open "animation.json")) by (simpl; discriminate).
  assert (Hi : served_by m (Open "insurance.csv")) by (simpl; discriminate).
  assert (Hc : forall a b c, served_by m (PageConfig a b c))
    by (intros; exact I).
  unfold pages.
  apply confined_bind; [confine | intros _].
  apply confined_bind; [unfold st_markdown; confine | intros _].
  apply confined_bind; [unfold radio; confine | intros menu].
  apply confined_bind; [unfold load_lottie; confine | intros animation].
  apply confined_bind.
  { destruct (String.eqb menu _); [| apply confined_ret].
    unfold home_page, st_lottie, st_markdown. confine. }
  intros _. apply confined_bind.
  { destruct (String.eqb menu _); [| apply confined_ret].
    apply confined_bind; [| intros ?; apply confined_ret].
    now apply confined_predict_page. }
  intros _. apply confined_bind.
  { destruct (String.eqb menu _); [| apply confined_ret].
    unfold analytics_page, analytics_charts, pd_read_csv_path, st_markdown.
    confine. }
  intros _. apply confined_bind.
  { destruct (String.eqb menu _); [| apply confined_ret].
    unfold upload_page, file_uploader, st_markdown. confine. }
  intros _. unfold st_markdown. confine.
Qed.

(** A warm store: [load_model] hands back the stored handle and does
    nothing else. *)
Lemma load_model_warm w m :
  resource_cache w !! "load_model" = Some m -> load_model w = (Ok m, w).
Proof. intros H. unfold load_model, cache_resource. now rewrite H. Qed.

(** A cold store and a loadable artifact: one read, and the handle is
    stored. *)
Lemma load_model_cold w content m :
  resource_cache w !! "load_model" = None ->
  files w !! "optimized_random_forest_model.joblib" = Some content ->
  joblib_load content = Ok m ->
  load_model w
  = (Ok m,
     remember "load_model" m
       (log (Open "optimized_random_forest_model.joblib") w)).
Proof.
  intros Hc Hf Hl. unfold load_model, cache_resource. rewrite Hc.
  unfold joblib_load_path. cbv [mbind Script_bind open_read lift].
  rewrite Hf, Hl. reflexivity.
Qed.

(** Running the pages with the stored handle keeps the process warm. *)
Lemma pages_keep_warm m w0 t :
  opens "optimized_random_forest_model.joblib" t = 1%nat ->
  Forall (scored_by m) t ->
  resource_cache w0 = {[ "load_model" := m ]} ->
  trace w0 = t ->
  warm m match pages m w0 with
         | (Ok _, w') => w'
         | (Raise e, w') => log (Render Main (Exception e)) w'
         end.
Proof.
  intros Hopens Hscored Hcache Htrace.
  destruct (confined_pages m w0) as (_ & _ & Hrc & added & Hadd & Hserved).
  pose proof (served_by_no_open _ _ Hserved) as Hno.
  pose proof (served_by_scored_by _ _ Hserved) as Hsc.
  destruct (pages m w0) as [[[] | e] w']; simpl in *; unfold warm; simpl;
    rewrite Hadd, Htrace, ?opens_app, Hopens, Hno, Hrc, Hcache.
  - repeat split; [apply Forall_app; split; assumption].
  - repeat split.
    apply Forall_app; split; [| repeat constructor].
    apply Forall_app; split; assumption.
Qed.

Lemma rerun_warm m w i : warm m w -> warm m (rerun w i).
Proof.
  intros (Hopens & Hcache & Hscored). unfold rerun, script.
  rewrite bind_run, (load_model_warm _ m)
    by (cbn [resource_cache]; rewrite Hcache; apply lookup_singleton_eq).
  now apply (pages_keep_warm m _ (trace w)).
Qed.

Lemma rerun_boot i content m :
  i.1 !! "optimized_random_forest_model.joblib" = Some content ->
  joblib_load content = Ok m ->
  warm m (rerun boot i).
Proof.
  intros Hf Hl. unfold rerun, script.
  rewrite bind_run, (load_model_cold _ content m) by assumption || reflexivity.
  apply (pages_keep_warm m _ [Open "optimized_random_forest_model.joblib"]).
  - reflexivity.
  - repeat constructor.
  - reflexivity.
  - reflexivity.
Qed.

Lemma process_warm m (later : list interaction) w :
  warm m w -> warm m (fold_left rerun later w).
Proof.
  revert w. induction later as [| i later IH]; intros w Hw; [exact Hw |].
  simpl. apply IH, rerun_warm, Hw.
Qed.

(** C9: a process whose first run finds a loadable artifact reads the
    artifact once in its whole life, whatever the later interactions and
    whatever becomes of the file: the handle of that first load stays in the
    resource store, unchanged, and every call to a model in any run is a
    call to that handle. *)
Theorem model_loaded_once (first : interaction) (later : list interaction)
    content m :
  first.1 !! "optimized_random_forest_model.joblib" = Some content ->
  joblib_load content = Ok m ->
  opens "optimized_random_forest_model.joblib"
    (trace (process (first :: later))) = 1%nat /\
  resource_cache (process (first :: later)) = {[ "load_model" := m ]} /\
  Forall (scored_by m) (trace (process (first :: later))).
Proof.
  intros Hf Hl. unfold process. simpl fold_left.
  apply (process_warm m later), (rerun_boot first content m); assumption.
Qed.

End CachedModel.

Lemma model_loaded_once_witness :
  opens "optimized_random_forest_model.joblib"
    (trace (@process Toy.ext
              [ (Toy.disk, Toy.example_request);
                (Toy.disk_later, Toy.example_request);
                (∅, Toy.at_page 2) ])) = 1%nat /\
  resource_cache (@process Toy.ext
                    [ (Toy.disk, Toy.example_request);
                      (Toy.disk_later, Toy.example_request);
                      (∅, Toy.at_page 2) ])
  = {[ "load_model" := Toy.forest ]} /\
  Forall (scored_by Toy.forest)
    (trace (@process Toy.ext
              [ (Toy.disk, Toy.example_request);
                (Toy.disk_later, Toy.example_request);
                (∅, Toy.at_page 2) ])).
Proof.
  apply (@model_loaded_once Toy.ext (Toy.disk, Toy.example_request)
           [ (Toy.disk_later, Toy.example_request); (∅, Toy.at_page 2) ]
           "forest" Toy.forest).
  - vm_compute. reflexivity.
  - vm_compute. reflexivity.
Defined.

(** The second prediction of that process is made after the artifact was
    replaced on disk, and still shows the charge of the first handle. *)
Example replaced_artifact_not_reloaded :
  let shown :=
    markdowns (trace (@process Toy.ext
                        [ (Toy.disk, Toy.example_request);
                          (Toy.disk_later, Toy.example_request) ])) in
  length shown = 10%nat /\
  shown !! 3%nat = Some (result_card 33501.71875) /\
  shown !! 8%nat = Some (result_card 33501.71875).
Proof. vm_compute. repeat split; reflexivity. Qed.

(** While the artifact cannot be loaded nothing is stored, so every run
    tries the file again and ends with the exception on the page. *)
Example missing_artifact_retried :
  opens "optimized_random_forest_model.joblib"
    (trace (@process Toy.ext [ (∅, ∅); (∅, ∅); (∅, Toy.at_page 1) ]))
  = 3%nat /\
  resource_cache (@process Toy.ext [ (∅, ∅); (∅, ∅); (∅, Toy.at_page 1) ])
  = ∅.
Proof. split; vm_compute; reflexivity. Qed.

(** ** The animation and the Home page *)

Section Home.
Context `{ext : Externals}.

(** Lines 54-57, run. *)
Lemma animation_try_run w :
  animation_try w
  = (Ok match files w !! "animation.json" with
        | Some content =>
            match json_load content with
            | Ok a => Some a
            | Raise _ => None
            end
        | None => None
        end,
     log (Open "animation.json") w).
Proof.
  unfold animation_try, load_lottie.
  cbv [try_except mbind mret Script_bind Script_ret open_read lift].
  destruct (files w !! "animation.json") as [content |]; [| reflexivity].
  destruct (json_load content); reflexivity.
Qed.

(** X1: loading the animation never raises, whatever the file and the
    parser do: the file is opened once, and [animation] is the parsed value
    when the file is there and parses, [None] in every other case. *)
Theorem animation_never_fatal w :
  exists animation,
    animation_try w = (Ok animation, log (Open "animation.json") w) /\
    (forall a,
       animation = Some a <->
       exists content,
         files w !! "animation.json" = Some content /\
         json_load content = Ok a) /\
    (animation = None <->
     files w !! "animation.json" = None \/
     exists content e,
       files w !! "animation.json" = Some content /\
       json_load content = Raise e).
Proof.
  rewrite animation_try_run.
  destruct (files w !! "animation.json") as [content |] eqn:Hf.
  - destruct (json_load content) as [a | e] eqn:Hj.
    + exists (Some a). split; [reflexivity |]. split.
      * intros a'. split.
        -- intros [= <-]. now exists content.
        -- intros (c' & [= <-] & Ha'). congruence.
      * split; [discriminate |].
        intros [Hn | (c' & e' & [= <-] & He')]; congruence.
    + exists None. split; [reflexivity |]. split.
      * intros a'. split; [discriminate |].
        intros (c' & [= <-] & Ha'). congruence.
      * split; [| reflexivity].
        intros _. right. now exists content, e.
  - exists None. split; [reflexivity |]. split.
    + intros a'. split; [discriminate |]. intros (c' & Hc' & _). discriminate.
    + split; [| reflexivity]. intros _. now left.
Qed.





End Home.

(** A file holding the list [[1]] is truthy, and a list is not an
    animation: with a component that takes objects only, the Home page
    raises. *)
Example list_animation_raises :
  (@pages Toy.ext Toy.forest
     (Toy.world_of {[ "animation.json" := "[1]" ]} (Toy.at_page 0))).1
  = Raise (StreamlitAPIException "st_lottie").
Proof. vm_compute. reflexivity. Qed.

(** ** The Analytics page, whatever the dataset *)

Section AnalyticsCharts.
Context `{ext : Externals}.

Ltac run_analytics :=
  unfold analytics_page, analytics_charts, pd_read_csv_path, st_markdown;
  cbv [try_except mbind mret Script_bind Script_ret render emit open_read lift];
  cbn [files log].

(** X3: the Analytics page never raises, whatever the file holds and
    whatever pandas and plotly do with it: after its heading it either
    renders the tabs and all three charts, or ends on the error message. *)
Theorem analytics_never_raises w :
  exists shown,
    analytics_page w = (Ok tt, logs (analytics_head :: shown) w) /\
    (last shown = Some (Render Main (Error dataset_missing)) \/
     exists f1 f2 f3,
       shown = [ Open "insurance.csv";
                 Render Main
                   (Tabs ["Age vs Charges"; "BMI vs Charges"; "Smoker Impact"]);
                 Render (Tab 1) (PlotlyChart f1 true);
                 Render (Tab 2) (PlotlyChart f2 true);
                 Render (Tab 3) (PlotlyChart f3 true) ]).
Proof.
  run_analytics.
  destruct (files w !! "insurance.csv") as [content |];
    [| flatten_logs; eexists; split; [reflexivity | left; reflexivity]].
  destruct (read_csv content) as [df | e];
    [| flatten_logs; eexists; split; [reflexivity | left; reflexivity]].
  destruct (px_scatter df "age" "charges" "sex" "Age vs Charges") as [f1 | e];
    [| flatten_logs; eexists; split; [reflexivity | left; reflexivity]].
  destruct (px_scatter df "bmi" "charges" "smoker" "BMI vs Charges")
    as [f2 | e];
    [| flatten_logs; eexists; split; [reflexivity | left; reflexivity]].
  destruct (px_box df "smoker" "charges" _) as [f3 | e];
    [| flatten_logs; eexists; split; [reflexivity | left; reflexivity]].
  flatten_logs. eexists. split; [reflexivity |].
  right. exists f1, f2, f3. reflexivity.
Qed.

(** X4: a dataset that parses but lacks what the second chart needs: the
    first chart stays on the page, the second and third are not drawn, and
    the page ends on the message that insurance.csv was not found, although
    the file was found and read. *)
Theorem analytics_partial_failure w content df f1 e :
  files w !! "insurance.csv" = Some content ->
  read_csv content = Ok df ->
  px_scatter df "age" "charges" "sex" "Age vs Charges" = Ok f1 ->
  px_scatter df "bmi" "charges" "smoker" "BMI vs Charges" = Raise e ->
  analytics_page w
  = (Ok tt,
     logs [ analytics_head;
            Open "insurance.csv";
            Render Main
              (Tabs ["Age vs Charges"; "BMI vs Charges"; "Smoker Impact"]);
            Render (Tab 1) (PlotlyChart f1 true);
            Render Main (Error dataset_missing) ] w).
Proof.
  intros Hf Hp H1 H2. run_analytics.
  rewrite Hf, Hp, H1, H2. flatten_logs. reflexivity.
Qed.

(** A dataset that parses and from which the three figures can be
    built: the page renders the three charts, each in its tab, in the order
    age, BMI, smoker, and no error message. *)
Theorem analytics_three_charts w content df f1 f2 f3 :
  files w !! "insurance.csv" = Some content ->
  read_csv content = Ok df ->
  px_scatter df "age" "charges" "sex" "Age vs Charges" = Ok f1 ->
  px_scatter df "bmi" "charges" "smoker" "BMI vs Charges" = Ok f2 ->
  px_box df "smoker" "charges" "Smoker vs Non‑Smoker Charges" = Ok f3 ->
  analytics_page w
  = (Ok tt,
     logs [ analytics_head;
            Open "insurance.csv";
            Render Main
              (Tabs ["Age vs Charges"; "BMI vs Charges"; "Smoker Impact"]);
            Render (Tab 1) (PlotlyChart f1 true);
            Render (Tab 2) (PlotlyChart f2 true);
            Render (Tab 3) (PlotlyChart f3 true) ] w).
Proof.
  intros Hf Hp H1 H2 H3. run_analytics.
  rewrite Hf, Hp, H1, H2, H3. flatten_logs. reflexivity.
Qed.

End AnalyticsCharts.

Lemma analytics_partial_failure_witness :
  (@analytics_page Sparse.ext
     (Toy.world_of {[ "insurance.csv" := "age,sex,bmi,charges" ]}
        (Toy.at_page 2))).1 = Ok tt /\
  last (trace (@analytics_page Sparse.ext
                 (Toy.world_of {[ "insurance.csv" := "age,sex,bmi,charges" ]}
                    (Toy.at_page 2))).2)
  = Some (Render Main (Error dataset_missing)).
Proof.
  rewrite (@analytics_partial_failure Sparse.ext
             (Toy.world_of {[ "insurance.csv" := "age,sex,bmi,charges" ]}
                (Toy.at_page 2))
             "age,sex,bmi,charges" Sparse.sheet
             {| fig_json := "Age vs Charges" |} (LibraryError "plotly")).
  - split; reflexivity.
  - vm_compute. reflexivity.
  - reflexivity.
  - vm_compute. reflexivity.
  - vm_compute. reflexivity.
Defined.

Lemma analytics_three_charts_witness :
  (@analytics_page Toy.ext
     (Toy.world_of {[ "insurance.csv" := "sheet" ]} (Toy.at_page 2))).1
  = Ok tt /\
  length (trace (@analytics_page Toy.ext
                   (Toy.world_of {[ "insurance.csv" := "sheet" ]}
                      (Toy.at_page 2))).2) = 6%nat.
Proof.
  rewrite (@analytics_three_charts Toy.ext
             (Toy.world_of {[ "insurance.csv" := "sheet" ]} (Toy.at_page 2))
             "sheet" Toy.sheet
             {| fig_json := "Age vs Charges" |}
             {| fig_json := "BMI vs Charges" |}
             {| fig_json := "Smoker vs Non‑Smoker Charges" |}).
  - split; reflexivity.
  - vm_compute. reflexivity.
  - vm_compute. reflexivity.
  - vm_compute. reflexivity.
  - vm_compute. reflexivity.
  - vm_compute. reflexivity.
Defined.

(** ** The script, page by page *)

Section Dispatch.
Context `{ext : Externals}.

(** Lines 20-43, up to the value of [menu]. *)
Lemma pages_split model w menu :
  chosen "Navigation" menu_options (frontend w) = Ok menu ->
  pages model w = pages_from model menu (logs page_top w).
Proof.
  intros Hmenu. unfold pages.
  rewrite bind_run. unfold emit at 1. cbv beta iota.
  rewrite bind_run. unfold st_markdown at 1, render at 1, emit at 1.
  cbv beta iota.
  rewrite bind_run. unfold radio, widget.
  rewrite bind_run. unfold render at 1, emit at 1. cbv beta iota.
  unfold ask. cbn [frontend log]. rewrite Hmenu. cbv beta iota.
  flatten_logs. reflexivity.
Qed.

Lemma pages_radio_fails model w e :
  chosen "Navigation" menu_options (frontend w) = Raise e ->
  pages model w = (Raise e, logs page_top w).
Proof.
  intros Hmenu. unfold pages.
  rewrite bind_run. unfold emit at 1. cbv beta iota.
  rewrite bind_run. unfold st_markdown at 1, render at 1, emit at 1.
  cbv beta iota.
  rewrite bind_run. unfold radio, widget.
  rewrite bind_run. unfold render at 1, emit at 1. cbv beta iota.
  unfold ask. cbn [frontend log]. rewrite Hmenu. cbv beta iota.
  flatten_logs. reflexivity.
Qed.

Ltac run_upload :=
  unfold upload_page, file_uploader, st_markdown;
  cbv [mbind mret Script_bind Script_ret widget render emit ask lift];
  cbn [frontend log].

Lemma upload_page_rejected w content e :
  uploaded_file "Upload CSV" (frontend w) = Ok (Some content) ->
  read_csv content = Raise e ->
  upload_page w = (Raise e, logs upload_head w).
Proof.
  intros Hu Hp. run_upload. rewrite Hu, Hp. flatten_logs. reflexivity.
Qed.

(** X5: an uploaded file that pandas parses is shown as parsed, whatever
    its columns: the page checks nothing about the table; it renders the
    preview heading, the table and the success message. *)
Theorem upload_previews_any_table w content df :
  uploaded_file "Upload CSV" (frontend w) = Ok (Some content) ->
  read_csv content = Ok df ->
  upload_page w
  = (Ok tt,
     logs (upload_head ++
           [ Render Main (Write "### Preview");
             Render Main (Dataframe df);
             Render Main (Success "Dataset loaded successfully!") ]) w).
Proof.
  intros Hu Hp. run_upload. rewrite Hu, Hp. flatten_logs. reflexivity.
Qed.

(** X6: an uploaded file that pandas rejects is not handled: unlike the
    Analytics page, the Upload page has no [try], so the exception leaves
    the script; the run stops after the uploader and the footer is not
    rendered. *)
Theorem bad_upload_uncaught model w content e :
  chosen "Navigation" menu_options (frontend w) = Ok "📁 Upload Dataset" ->
  uploaded_file "Upload CSV" (frontend w) = Ok (Some content) ->
  read_csv content = Raise e ->
  pages model w
  = (Raise e,
     logs (page_top ++ [Open "animation.json"] ++ upload_head) w).
Proof.
  intros Hmenu Hu Hp.
  rewrite (pages_split _ _ _ Hmenu). unfold pages_from, pages_after.
  rewrite bind_run, animation_try_run.
  change (String.eqb "📁 Upload Dataset" "🏠 Home") with false.
  change (String.eqb "📁 Upload Dataset" "📈 Predict") with false.
  change (String.eqb "📁 Upload Dataset" "📊 Analytics") with false.
  change (String.eqb "📁 Upload Dataset" "📁 Upload Dataset") with true.
  cbv beta iota.
  cbv [mret Script_ret].
  do 3 (rewrite bind_run; cbv beta iota).
  rewrite bind_run, (upload_page_rejected _ content e) by assumption.
  flatten_logs. reflexivity.
Qed.

(** X7: a cold store and an artifact that is missing or does not
    deserialise: the script raises at line 15, before anything is rendered;
    all the run did is try to open the artifact, and nothing is stored. *)
Theorem missing_model_fatal w :
  resource_cache w !! "load_model" = None ->
  unloadable (files w) ->
  exists e,
    script w = (Raise e, log (Open "optimized_random_forest_model.joblib") w).
Proof.
  intros Hc Hbad. unfold script. rewrite bind_run.
  unfold load_model, cache_resource. rewrite Hc.
  unfold joblib_load_path. cbv [mbind Script_bind open_read lift].
  destruct Hbad as [Hf | (content & e & Hf & Hl)].
  - rewrite Hf. eexists. reflexivity.
  - rewrite Hf, Hl. eexists. reflexivity.
Qed.

End Dispatch.

Lemma upload_previews_any_table_witness :
  (@upload_page Toy.ext
     (Toy.world_of Toy.disk
        (<["Upload CSV" := Uploaded "sheet"]> (Toy.at_page 3)))).1 = Ok tt.
Proof.
  rewrite (@upload_previews_any_table Toy.ext
             (Toy.world_of Toy.disk
                (<["Upload CSV" := Uploaded "sheet"]> (Toy.at_page 3)))
             "sheet" Toy.sheet).
  - reflexivity.
  - vm_compute. reflexivity.
  - vm_compute. reflexivity.
Defined.

Lemma bad_upload_uncaught_witness :
  (@pages Toy.ext Toy.forest
     (Toy.world_of Toy.disk
        (<["Upload CSV" := Uploaded "not a table"]> (Toy.at_page 3)))).1
  = Raise (LibraryError "pandas").
Proof.
  rewrite (@bad_upload_uncaught Toy.ext Toy.forest
             (Toy.world_of Toy.disk
                (<["Upload CSV" := Uploaded "not a table"]> (Toy.at_page 3)))
             "not a table" (LibraryError "pandas")).
  - reflexivity.
  - vm_compute. reflexivity.
  - vm_compute. reflexivity.
  - vm_compute. reflexivity.
Defined.

Lemma missing_model_fatal_witness :
  exists e,
    @script Toy.ext (Toy.world_of ∅ (Toy.at_page 1))
    = (Raise e,
       log (Open "optimized_random_forest_model.joblib")
         (Toy.world_of ∅ (Toy.at_page 1))).
Proof.
  apply (@missing_model_fatal Toy.ext (Toy.world_of ∅ (Toy.at_page 1))).
  - vm_compute. reflexivity.
  - left. vm_compute. reflexivity.
Defined.

(** ** Which page does what *)

Ltac all_events :=
  repeat first
    [ assumption
    | exact I
    | apply Forall_nil
    | apply Forall_app; split
    | apply Forall_cons; split
    | progress simpl; discriminate ].

Section PagesConfined.
Context `{ext : Externals}.
Context (P : event -> Prop).
Hypothesis renders : forall c e, P (Render c e).

Lemma confined_animation_try :
  P (Open "animation.json") -> confined P animation_try.
Proof. intros Ha. unfold animation_try, load_lottie. confine. Qed.

Lemma confined_home_page animation : confined P (home_page animation).
Proof. unfold home_page, st_lottie, st_markdown. confine. Qed.

Lemma confined_analytics_page :
  P (Open "insurance.csv") -> confined P analytics_page.
Proof.
  intros Hi.
  unfold analytics_page, analytics_charts, pd_read_csv_path, st_markdown.
  confine.
Qed.

Lemma confined_upload_page : confined P upload_page.
Proof. unfold upload_page, file_uploader, st_markdown. confine. Qed.

End PagesConfined.

Section WhichPage.
Context `{ext : Externals}.

(** What the pages do once the animation is loaded: they render, and
    only the Predict page calls the model, only the Analytics page opens
    the dataset. *)
Lemma confined_pages_after (P : event -> Prop) model menu animation :
  (forall c e, P (Render c e)) ->
  (menu = "📈 Predict" -> forall table, P (Score model table)) ->
  (menu = "📊 Analytics" -> P (Open "insurance.csv")) ->
  confined P (pages_after model menu animation).
Proof.
  intros Hr Hs Hi. unfold pages_after.
  apply confined_bind.
  { destruct (String.eqb menu _);
      [now apply confined_home_page | apply confined_ret]. }
  intros _. apply confined_bind.
  { destruct (String.eqb_spec menu "📈 Predict"); [| apply confined_ret].
    apply confined_bind; [| intros ?; apply confined_ret].
    apply confined_predict_page; auto. }
  intros _. apply confined_bind.
  { destruct (String.eqb_spec menu "📊 Analytics"); [| apply confined_ret].
    apply confined_analytics_page; auto. }
  intros _. apply confined_bind.
  { destruct (String.eqb menu _);
      [now apply confined_upload_page | apply confined_ret]. }
  intros _. unfold st_markdown. confine.
Qed.

Lemma confined_pages_from_off_predict model menu :
  menu <> "📈 Predict" -> confined no_score (pages_from model menu).
Proof.
  intros Hne. unfold pages_from.
  apply confined_bind;
    [apply confined_animation_try; exact I | intros animation].
  apply confined_pages_after.
  - intros; exact I.
  - intros ->. contradiction.
  - intros _. exact I.
Qed.

Lemma confined_pages_from_off_analytics model menu :
  menu <> "📊 Analytics" ->
  confined (not_opening "insurance.csv") (pages_from model menu).
Proof.
  intros Hne. unfold pages_from.
  apply confined_bind;
    [apply confined_animation_try; simpl; discriminate | intros animation].
  apply confined_pages_after.
  - intros; exact I.
  - intros _ table. exact I.
  - intros ->. contradiction.
Qed.

(** The Predict page without a pressed button calls no model, however the
    run ends. *)
Lemma predict_page_no_score model w :
  clicked "Predict" (frontend w) <> Ok true ->
  exists added : list event,
    trace (predict_page model w).2 = (trace w ++ added)%list /\
    Forall no_score added.
Proof.
  intros Hidle. rewrite predict_page_run.
  destruct (confined_predict_form no_score (fun _ _ => I) (logs page_head w))
    as (_ & Hfe & _ & added1 & Ht1 & HP1).
  destruct (predict_form (logs page_head w))
    as [[[[[[[age bmi] children] smoker] sex] region] | e] w1];
    cbn [fst snd frontend trace logs] in *.
  - destruct (clicked "Predict" (frontend w1)) as [[|] | e] eqn:Hc.
    + rewrite Hfe in Hc. contradiction.
    + rewrite predict_submit_idle by exact Hc. cbn [snd trace logs].
      rewrite Ht1, <- !app_assoc. eexists. split; [reflexivity |].
      unfold page_head. all_events.
    + rewrite (predict_submit_stuck _ _ _ e) by exact Hc. cbn [snd trace logs].
      rewrite Ht1, <- !app_assoc. eexists. split; [reflexivity |].
      unfold page_head. all_events.
  - rewrite Ht1, <- !app_assoc. eexists. split; [reflexivity |].
    unfold page_head. all_events.
Qed.

(** X8: a model is called only in a run where the menu is on Predict and
    the Predict button was pressed: in every other run, however it ends,
    no event of the run is a call to a model. *)
Theorem model_called_only_on_pressed_predict model w :
  ~ (chosen "Navigation" menu_options (frontend w) = Ok "📈 Predict" /\
     clicked "Predict" (frontend w) = Ok true) ->
  exists added : list event,
    trace (pages model w).2 = (trace w ++ added)%list /\
    Forall no_score added.
Proof.
  intros Hoff.
  destruct (chosen "Navigation" menu_options (frontend w)) as [menu | e]
    eqn:Hmenu.
  - rewrite (pages_split _ _ _ Hmenu).
    destruct (String.eqb_spec menu "📈 Predict") as [-> | Hne].
    + assert (Hidle : clicked "Predict" (frontend w) <> Ok true)
        by (intros Hc; apply Hoff; split; [reflexivity | exact Hc]).
      unfold pages_from, pages_after.
      rewrite bind_run, animation_try_run.
      change (String.eqb "📈 Predict" "🏠 Home") with false.
      change (String.eqb "📈 Predict" "📈 Predict") with true.
      change (String.eqb "📈 Predict" "📊 Analytics") with false.
      change (String.eqb "📈 Predict" "📁 Upload Dataset") with false.
      cbv beta iota. cbv [mret Script_ret].
      rewrite bind_run; cbv beta iota.
      rewrite !bind_run.
      destruct (predict_page_no_score model
                  (log (Open "animation.json") (logs page_top w)) Hidle)
        as (added & Ht & HP).
      destruct (predict_page model _) as [[r | e] w2];
        cbn [fst snd trace logs log] in *.
      * cbv beta iota. rewrite bind_run. cbv beta iota.
        rewrite bind_run. cbv beta iota.
        unfold st_markdown, render, emit. cbn [snd trace log].
        rewrite Ht, <- !app_assoc. eexists. split; [reflexivity |].
        unfold page_top. all_events.
      * rewrite Ht, <- !app_assoc. eexists. split; [reflexivity |].
        unfold page_top. all_events.
    + destruct (confined_pages_from_off_predict model menu Hne
                  (logs page_top w)) as (_ & _ & _ & added & Ht & HP).
      rewrite Ht. cbn [trace logs]. rewrite <- app_assoc.
      eexists. split; [reflexivity |]. unfold page_top. all_events.
  - rewrite (pages_radio_fails _ _ e Hmenu). cbn [snd trace logs].
    eexists. split; [reflexivity |]. unfold page_top. all_events.
Qed.

(** X9: insurance.csv is opened only in a run where the menu is on
    Analytics: in every other run, however it ends, no event of the run
    opens that file. *)
Theorem dataset_opened_only_on_analytics model w :
  chosen "Navigation" menu_options (frontend w) <> Ok "📊 Analytics" ->
  exists added : list event,
    trace (pages model w).2 = (trace w ++ added)%list /\
    Forall (not_opening "insurance.csv") added.
Proof.
  intros Hoff.
  destruct (chosen "Navigation" menu_options (frontend w)) as [menu | e]
    eqn:Hmenu.
  - rewrite (pages_split _ _ _ Hmenu).
    assert (Hne : menu <> "📊 Analytics") by congruence.
    destruct (confined_pages_from_off_analytics model menu Hne
                (logs page_top w)) as (_ & _ & _ & added & Ht & HP).
    rewrite Ht. cbn [trace logs]. rewrite <- app_assoc.
    eexists. split; [reflexivity |]. unfold page_top. all_events.
  - rewrite (pages_radio_fails _ _ e Hmenu). cbn [snd trace logs].
    eexists. split; [reflexivity |]. unfold page_top. all_events.
Qed.

(** X10: the animation file is read again in every run that gets past the
    menu, whatever the page, also on the three pages that do not show it:
    each such run starts with the page setup and then opens
    animation.json. *)
Theorem animation_read_every_run model w menu :
  chosen "Navigation" menu_options (frontend w) = Ok menu ->
  exists rest : list event,
    trace (pages model w).2
    = (trace w ++ page_top ++ [Open "animation.json"] ++ rest)%list.
Proof.
  intros Hmenu. rewrite (pages_split _ _ _ Hmenu).
  unfold pages_from. rewrite bind_run, animation_try_run.
  match goal with
  | |- context [pages_after model menu ?a ?w1] =>
      destruct (confined_pages_after (fun _ => True) model menu a
                  (fun _ _ => I) (fun _ _ => I) (fun _ => I) w1)
        as (_ & _ & _ & added & Ht & _)
  end.
  rewrite Ht. cbn [trace logs log].
  exists added. now rewrite <- !app_assoc.
Qed.

End WhichPage.

Lemma model_called_only_on_pressed_predict_witness :
  exists added : list event,
    trace (@pages Toy.ext Toy.forest
             (Toy.world_of Toy.disk (Toy.at_page 1))).2
    = (trace (Toy.world_of Toy.disk (Toy.at_page 1)) ++ added)%list /\
    Forall no_score added.
Proof.
  apply (@model_called_only_on_pressed_predict Toy.ext Toy.forest
           (Toy.world_of Toy.disk (Toy.at_page 1))).
  intros [_ Hpressed]. vm_compute in Hpressed. discriminate Hpressed.
Defined.

Lemma dataset_opened_only_on_analytics_witness :
  exists added : list event,
    trace (@pages Toy.ext Toy.forest
             (Toy.world_of {[ "insurance.csv" := "sheet" ]} Toy.example_request)).2
    = (trace (Toy.world_of {[ "insurance.csv" := "sheet" ]}
                Toy.example_request) ++ added)%list /\
    Forall (not_opening "insurance.csv") added.
Proof.
  apply (@dataset_opened_only_on_analytics Toy.ext Toy.forest
           (Toy.world_of {[ "insurance.csv" := "sheet" ]} Toy.example_request)).
  intros Hmenu. vm_compute in Hmenu. discriminate Hmenu.
Defined.

Lemma animation_read_every_run_witness :
  exists rest : list event,
    trace (@pages Toy.ext Toy.forest
             (Toy.world_of Toy.disk (Toy.at_page 2))).2
    = (trace (Toy.world_of Toy.disk (Toy.at_page 2))
       ++ page_top ++ [Open "animation.json"] ++ rest)%list.
Proof.
  apply (@animation_read_every_run Toy.ext Toy.forest
           (Toy.world_of Toy.disk (Toy.at_page 2)) "📊 Analytics").
  vm_compute. reflexivity.
Defined.

(** ** Loading the model until it succeeds *)

Section Retry.
Context `{ext : Externals}.

Lemma load_model_fails w :
  resource_cache w !! "load_model" = None ->
  unloadable (files w) ->
  exists e,
    load_model w
    = (Raise e, log (Open "optimized_random_forest_model.joblib") w).
Proof.
  intros Hc Hbad. unfold load_model, cache_resource. rewrite Hc.
  unfold joblib_load_path. cbv [mbind Script_bind open_read lift].
  destruct Hbad as [Hf | (content & e & Hf & Hl)].
  - rewrite Hf. eexists. reflexivity.
  - rewrite Hf, Hl. eexists. reflexivity.
Qed.

(** A run that cannot load the artifact: one more attempt, nothing stored. *)
Lemma rerun_cold_fails k m w i :
  cold k m w -> unloadable i.1 -> cold (S k) m (rerun w i).
Proof.
  intros (Hopens & Hcache & Hscored) Hbad. unfold rerun, script.
  rewrite bind_run.
  destruct (load_model_fails
              {| files := i.1; frontend := i.2;
                 resource_cache := resource_cache w; trace := trace w |})
    as [e He].
  { cbn [resource_cache]. rewrite Hcache. apply lookup_empty. }
  { exact Hbad. }
  rewrite He. unfold cold, log. cbn [trace resource_cache].
  rewrite <- app_assoc, opens_app, Hopens. cbn [app].
  repeat split.
  - rewrite !opens_cons. cbn [is_open]. rewrite String.eqb_refl.
    change (opens "optimized_random_forest_model.joblib" []) with 0%nat. lia.
  - exact Hcache.
  - apply Forall_app. split; [exact Hscored |]. repeat constructor.
Qed.

Lemma pages_keep_loaded k m w0 t :
  opens "optimized_random_forest_model.joblib" t = k ->
  Forall (scored_by m) t ->
  resource_cache w0 = {[ "load_model" := m ]} ->
  trace w0 = t ->
  loaded_after k m match pages m w0 with
                   | (Ok _, w') => w'
                   | (Raise e, w') => log (Render Main (Exception e)) w'
                   end.
Proof.
  intros Hopens Hscored Hcache Htrace.
  destruct (confined_pages m w0) as (_ & _ & Hrc & added & Hadd & Hserved).
  pose proof (served_by_no_open _ _ Hserved) as Hno.
  pose proof (served_by_scored_by _ _ Hserved) as Hsc.
  destruct (pages m w0) as [[[] | e] w']; simpl in *;
    unfold loaded_after; simpl;
    rewrite Hadd, Htrace, ?opens_app, Hopens, Hno, Hrc, Hcache.
  - repeat split; [apply Nat.add_0_r | apply Forall_app; split; assumption].
  - repeat split; [rewrite Nat.add_0_r; apply Nat.add_0_r |].
    apply Forall_app; split; [| repeat constructor].
    apply Forall_app; split; assumption.
Qed.

(** The first run that can load the artifact: one more attempt, and the
    handle is stored. *)
Lemma rerun_cold_loads k m w i content :
  cold k m w ->
  i.1 !! "optimized_random_forest_model.joblib" = Some content ->
  joblib_load content = Ok m ->
  loaded_after (S k) m (rerun w i).
Proof.
  intros (Hopens & Hcache & Hscored) Hf Hl. unfold rerun, script.
  rewrite bind_run, (load_model_cold _ content m);
    [| cbn [resource_cache]; rewrite Hcache; apply lookup_empty
     | exact Hf | exact Hl].
  apply (pages_keep_loaded (S k) m _
           (trace w ++ [Open "optimized_random_forest_model.joblib"])).
  - rewrite opens_app, Hopens, opens_cons. cbn [is_open].
    rewrite String.eqb_refl.
    change (opens "optimized_random_forest_model.joblib" []) with 0%nat. lia.
  - apply Forall_app. split; [exact Hscored |]. repeat constructor.
  - cbn [resource_cache remember log]. rewrite Hcache. reflexivity.
  - reflexivity.
Qed.

Lemma rerun_loaded k m w i : loaded_after k m w -> loaded_after k m (rerun w i).
Proof.
  intros (Hopens & Hcache & Hscored). unfold rerun, script.
  rewrite bind_run, (load_model_warm _ m)
    by (cbn [resource_cache]; rewrite Hcache; apply lookup_singleton_eq).
  now apply (pages_keep_loaded k m _ (trace w)).
Qed.

Lemma runs_cold m (before : list interaction) k w :
  cold k m w ->
  Forall (fun i : interaction => unloadable i.1) before ->
  cold (length before + k) m (fold_left rerun before w).
Proof.
  revert k w. induction before as [| i before IH]; intros k w Hw Hbad.
  - exact Hw.
  - apply Forall_cons in Hbad as [Hi Hbad]. simpl fold_left.
    replace (length (i :: before) + k)%nat with (length before + S k)%nat
      by (simpl; lia).
    apply IH; [now apply rerun_cold_fails | exact Hbad].
Qed.

Lemma runs_loaded m (later : list interaction) k w :
  loaded_after k m w -> loaded_after k m (fold_left rerun later w).
Proof.
  revert w. induction later as [| i later IH]; intros w Hw; [exact Hw |].
  simpl. apply IH, rerun_loaded, Hw.
Qed.

(** X11: a failed load stores nothing, so the artifact is tried again in
    every run until a load succeeds, and never after: when the first
    [length before] runs cannot load it and the next one can, the artifact
    is opened [length before + 1] times in the whole life of the process,
    and from then on the stored handle answers every call. *)
Theorem load_retried_until_success (before later : list interaction)
    (first : interaction) content m :
  Forall (fun i : interaction => unloadable i.1) before ->
  first.1 !! "optimized_random_forest_model.joblib" = Some content ->
  joblib_load content = Ok m ->
  opens "optimized_random_forest_model.joblib"
    (trace (process (before ++ first :: later))) = S (length before) /\
  resource_cache (process (before ++ first :: later))
  = {[ "load_model" := m ]} /\
  Forall (scored_by m) (trace (process (before ++ first :: later))).
Proof.
  intros Hbad Hf Hl. unfold process.
  rewrite fold_left_app. simpl fold_left.
  apply (runs_loaded m later (S (length before))).
  apply (rerun_cold_loads (length before) m _ first content); try assumption.
  replace (length before) with (length before + 0)%nat at 1 by lia.
  apply runs_cold; [| exact Hbad].
  repeat split. constructor.
Qed.

End Retry.

Lemma load_retried_until_success_witness :
  opens "optimized_random_forest_model.joblib"
    (trace (@process Toy.ext
              ([ (∅, Toy.at_page 1); ({[ Toy.artifact := "garbage" ]}, ∅) ]
               ++ (Toy.disk, Toy.example_request)
               :: [ (∅, Toy.example_request) ]))) = 3%nat.
Proof.
  apply (@load_retried_until_success Toy.ext
           [ (∅, Toy.at_page 1); ({[ Toy.artifact := "garbage" ]}, ∅) ]
           [ (∅, Toy.example_request) ]
           (Toy.disk, Toy.example_request) "forest" Toy.forest).
  - constructor; [left; vm_compute; reflexivity |].
    constructor; [| constructor].
    right. exists "garbage", (LibraryError "joblib").
    split; vm_compute; reflexivity.
  - vm_compute. reflexivity.
  - vm_compute. reflexivity.
Defined.

(** ** The amount on the result card *)








(** The sign is kept and the cents keep their leading zero; one eighth is
    a tie between 12 and 13 cents, and the card shows the even one. *)
Example card_amounts :
  format_2f (-1234.5625) = "-1234.56" /\
  format_2f 1.0625 = "1.06" /\
  format_2f 0.125 = "0.12".
Proof. vm_compute. repeat split; reflexivity. Qed.

(** ** A first visit *)

(** X14: on a first visit, when the browser has sent nothing for the six
    widgets and the button, the form reads age 0, BMI 0.0, no children,
    smoker yes, male, northwest: the page builds the row
    [0, 0.0, 0, 1, 1, 1, 0, 0] and makes no prediction. *)
Theorem first_visit_request `{ext : Externals} model w :
  (forall label, In label ("Predict" :: form_labels) ->
                 frontend w !! label = None) ->
  predict_page model w
  = (Ok ([ ("age", [PyInt 0]); ("bmi", [PyFloat 0]); ("children", [PyInt 0]);
           ("smoker", [PyInt 1]); ("sex_male", [PyInt 1]);
           ("region_northwest", [PyInt 1]); ("region_southeast", [PyInt 0]);
           ("region_southwest", [PyInt 0]) ], None),
     logs (page_head ++ form_shown ++ [Render Main (Button "Predict" true)]) w).
Proof.
  intros Hnone.
  assert (Hread : form_read (frontend w) (PyInt 0) (PyFloat 0) (PyInt 0)
                    "yes" "male" "northwest").
  { unfold form_read, entered, chosen.
    rewrite !Hnone by (unfold form_labels; simpl; tauto).
    repeat split; reflexivity. }
  assert (Hidle : clicked "Predict" (frontend w) = Ok false).
  { unfold clicked. rewrite Hnone by (simpl; tauto). reflexivity. }
  rewrite predict_page_run.
  rewrite (predict_form_returns _ (PyInt 0) (PyFloat 0) (PyInt 0)
             "yes" "male" "northwest") by exact Hread.
  rewrite predict_submit_idle by exact Hidle.
  rewrite !logs_logs. reflexivity.
Qed.

Lemma first_visit_request_witness :
  (predict_page (ext := Toy.ext) Toy.forest (Toy.world_of Toy.disk (Toy.at_page 1))).1
  = Ok (input_df (PyInt 0) (PyFloat 0) (PyInt 0) "yes" "male" "northwest",
        None).
Proof.
  rewrite (first_visit_request (ext := Toy.ext) Toy.forest
             (Toy.world_of Toy.disk (Toy.at_page 1))).
  - reflexivity.
  - intros label [<- | [<- | [<- | [<- | [<- | [<- | [<- | []]]]]]]];
      vm_compute; reflexivity.
Defined.

(** ** The encoding loses nothing the form can send *)

Lemma flag_yes_no s1 s2 :
  In s1 ["yes"; "no"] -> In s2 ["yes"; "no"] ->
  flag s1 "yes" = flag s2 "yes" -> s1 = s2.
Proof.
  intros [<- | [<- | []]] [<- | [<- | []]] H;
    reflexivity || (vm_compute in H; discriminate H).
Qed.

Lemma flag_male_female s1 s2 :
  In s1 ["male"; "female"] -> In s2 ["male"; "female"] ->
  flag s1 "male" = flag s2 "male" -> s1 = s2.
Proof.
  intros [<- | [<- | []]] [<- | [<- | []]] H;
    reflexivity || (vm_compute in H; discriminate H).
Qed.

Lemma flags_region r1 r2 :
  In r1 ["northwest"; "southeast"; "southwest"] ->
  In r2 ["northwest"; "southeast"; "southwest"] ->
  flag r1 "northwest" = flag r2 "northwest" ->
  flag r1 "southeast" = flag r2 "southeast" ->
  r1 = r2.
Proof.
  intros [<- | [<- | [<- | []]]] [<- | [<- | [<- | []]]] H1 H2;
    reflexivity
    || (vm_compute in H1; discriminate H1)
    || (vm_compute in H2; discriminate H2).
Qed.

(** X15: on the values the form offers the encoder is one to one: two
    requests with smoker among yes and no, sex among male and female and
    region among the three offered regions that give the same table are the
    same request. *)
Theorem encoder_injective_on_form a1 b1 c1 s1 x1 r1 a2 b2 c2 s2 x2 r2 :
  In s1 ["yes"; "no"] -> In s2 ["yes"; "no"] ->
  In x1 ["male"; "female"] -> In x2 ["male"; "female"] ->
  In r1 ["northwest"; "southeast"; "southwest"] ->
  In r2 ["northwest"; "southeast"; "southwest"] ->
  input_df a1 b1 c1 s1 x1 r1 = input_df a2 b2 c2 s2 x2 r2 ->
  a1 = a2 /\ b1 = b2 /\ c1 = c2 /\ s1 = s2 /\ x1 = x2 /\ r1 = r2.
Proof.
  intros Hs1 Hs2 Hx1 Hx2 Hr1 Hr2 Heq. unfold input_df in Heq.
  injection Heq as -> -> -> Hs Hx Hnw Hse _.
  repeat split.
  - now apply flag_yes_no.
  - now apply flag_male_female.
  - now apply flags_region.
Qed.

Lemma encoder_injective_on_form_witness :
  PyInt 35 = PyInt 35 /\ PyFloat 27.5 = PyFloat 27.5 /\ PyInt 2 = PyInt 2 /\
  "yes" = "yes" /\ "female" = "female" /\ "southeast" = "southeast".
Proof.
  apply (encoder_injective_on_form
           (PyInt 35) (PyFloat 27.5) (PyInt 2) "yes" "female" "southeast"
           (PyInt 35) (PyFloat 27.5) (PyInt 2) "yes" "female" "southeast");
    simpl; tauto || reflexivity.
Defined.

(** Off those values it is not: every region the form does not offer
    encodes as northeast does. *)
Example unknown_regions_collide :
  input_df (PyInt 35) (PyFloat 27.5) (PyInt 2) "yes" "female" "northeast"
  = input_df (PyInt 35) (PyFloat 27.5) (PyInt 2) "yes" "female" "Southwest".
Proof. reflexivity. Qed.

(** ** The footer *)

Lemma bind_returns {A B : Type} (c : Script A) (k : A -> Script B) w b w' :
  (c ≫= k) w = (Ok b, w') ->
  exists a w1, c w = (Ok a, w1) /\ k a w1 = (Ok b, w').
Proof.
  rewrite bind_run. destruct (c w) as [[a | e] w1]; [| discriminate].
  intros H. now exists a, w1.
Qed.

(** X16: a run of the pages that ends without an exception ends on the
    footer: whatever page was shown, the last thing rendered is the footer
    line. *)
Theorem footer_closes_every_run `{ext : Externals} model w w' :
  pages model w = (Ok tt, w') ->
  last (trace w') = Some (Render Main (Markdown footer true)).
Proof.
  intros Hrun.
  destruct (chosen "Navigation" menu_options (frontend w)) as [menu | e]
    eqn:Hmenu;
    [| rewrite (pages_radio_fails _ _ e Hmenu) in Hrun; discriminate].
  rewrite (pages_split _ _ _ Hmenu) in Hrun. unfold pages_from in Hrun.
  apply bind_returns in Hrun as (animation & w1 & _ & Hrun).
  unfold pages_after in Hrun.
  apply bind_returns in Hrun as (? & w2 & _ & Hrun).
  apply bind_returns in Hrun as (? & w3 & _ & Hrun).
  apply bind_returns in Hrun as (? & w4 & _ & Hrun).
  apply bind_returns in Hrun as (? & w5 & _ & Hrun).
  unfold st_markdown, render, emit in Hrun. injection Hrun as <-.
  unfold log. cbn [trace]. apply last_snoc.
Qed.

Lemma footer_closes_every_run_witness :
  last (trace (@pages Toy.ext Toy.forest
                 (Toy.world_of Toy.disk Toy.example_request)).2)
  = Some (Render Main (Markdown footer true)).
Proof.
  apply (@footer_closes_every_run Toy.ext Toy.forest
           (Toy.world_of Toy.disk Toy.example_request)).
  vm_compute. reflexivity.
Defined.
